(** * salaries-etl: the schema parser and the data cleaner of [salaries.py]

    A shallow embedding of [parse_sql_schema] and [clean_data] and the
    properties of the two functions.

    Conventions of the model.
    - Python [str] is [string]; the modelled texts are 7-bit ASCII, the
      range on which the classes [\w] and [\s] of [re] and [str.upper]
      are the ones written below.
    - An [OrderedDict] is an association list with unique keys, kept in
      insertion order by [od_set].
    - A [DataFrame] is a row count (its [RangeIndex]) and a list of
      labelled columns; data frames live in a store and are passed by
      reference, as Python objects are.
    - [pd.to_numeric], [pd.to_datetime] and [str] of floats and timestamps
      are library code: what they do to a non-null cell is a variable of
      the section [Cleaning], and so is what [astype(str)] and [where] do
      to a null cell, which changed between versions of [pandas]. *)

From Stdlib Require Import ZArith Floats Ascii String DecimalString Sorted.
From stdpp Require Import base option list strings gmap.

Local Open Scope string_scope.
Local Open Scope list_scope.

(* ================================================================== *)
(** ** Exceptions and results *)

Inductive exn : Type :=
| ValueError (msg : string)          (* raised by [parse_sql_schema] *)
| KeyError (missing : list string)   (* raised by [df[labels]] *)
| InvalidReference.                  (* model only: a reference outside the store *)

Inductive result (A : Type) : Type :=
| Ok (a : A)
| Raise (e : exn).
Arguments Ok {A} a.
Arguments Raise {A} e.

(* ================================================================== *)
(** ** Characters and strings *)

Module Chars.

Definition between (lo hi : N) (c : ascii) : bool :=
  let n := N_of_ascii c in (lo <=? n)%N && (n <=? hi)%N.

(** [\s] of [re] on [str], and [str.isspace]: TAB..CR, FS..US and SPACE. *)
Definition is_space (c : ascii) : bool :=
  between 9 13 c || between 28 32 c.

(** [\w] of [re]: letters, digits and the underscore. *)
Definition is_word (c : ascii) : bool :=
  between 48 57 c || between 65 90 c || between 97 122 c || Ascii.eqb c "_".

(** The class [[\w\(\)]] of the column pattern. *)
Definition is_type_char (c : ascii) : bool :=
  is_word c || Ascii.eqb c "(" || Ascii.eqb c ")".

Definition is_newline (c : ascii) : bool := Ascii.eqb c "010".

(** One character of [str.upper]. *)
Definition upper_char (c : ascii) : ascii :=
  if between 97 122 c then ascii_of_N (N_of_ascii c - 32) else c.

(** Two characters are equal under [re.IGNORECASE]. *)
Definition eqb_nocase (a b : ascii) : bool :=
  Ascii.eqb (upper_char a) (upper_char b).

End Chars.

Module Str.
Import Chars.

Definition is_empty (s : string) : bool :=
  match s with EmptyString => true | String _ _ => false end.

(** The longest prefix of [s] in the class [p], and what follows it: a
    greedy [p*]. *)
Fixpoint span (p : ascii -> bool) (s : string) : string * string :=
  match s with
  | EmptyString => (EmptyString, EmptyString)
  | String c s' =>
      if p c then let '(a, b) := span p s' in (String c a, b)
      else (EmptyString, s)
  end.

Fixpoint all (p : ascii -> bool) (s : string) : bool :=
  match s with
  | EmptyString => true
  | String c s' => p c && all p s'
  end.

(** [s] starts with the literal [lit], characters compared by [eq]: the
    rest of [s]. *)
Fixpoint strip_prefix (eq : ascii -> ascii -> bool) (lit s : string)
  : option string :=
  match lit, s with
  | EmptyString, _ => Some s
  | String a lit', String b s' =>
      if eq a b then strip_prefix eq lit' s' else None
  | String _ _, EmptyString => None
  end.

(** A lazy [.*?] (with [re.DOTALL]) followed by the literal [lit]: the
    text before the first occurrence of [lit], and the text after it. *)
Fixpoint lazy_until (lit s : string) : option (string * string) :=
  match strip_prefix Ascii.eqb lit s with
  | Some rest => Some (EmptyString, rest)
  | None =>
      match s with
      | EmptyString => None
      | String c s' =>
          match lazy_until lit s' with
          | Some (body, rest) => Some (String c body, rest)
          | None => None
          end
      end
  end.

(** [s.upper()] *)
Fixpoint upper (s : string) : string :=
  match s with
  | EmptyString => EmptyString
  | String c s' => String (upper_char c) (upper s')
  end.

Fixpoint lstrip (s : string) : string :=
  match s with
  | EmptyString => EmptyString
  | String c s' => if is_space c then lstrip s' else s
  end.

Fixpoint rstrip (s : string) : string :=
  match s with
  | EmptyString => EmptyString
  | String c s' =>
      match rstrip s' with
      | EmptyString => if is_space c then EmptyString else String c EmptyString
      | r => String c r
      end
  end.

(** [s.strip()] *)
Definition strip (s : string) : string := rstrip (lstrip s).

(** [s.split(' ')[0]]: the text before the first space. *)
Fixpoint split_space_head (s : string) : string :=
  match s with
  | EmptyString => EmptyString
  | String c s' =>
      if Ascii.eqb c " " then EmptyString else String c (split_space_head s')
  end.

End Str.

(* ================================================================== *)
(** ** The two patterns of [parse_sql_schema] *)

Module Regex.
Import Chars Str.

(** A match of [table_pattern]: groups 1 and 2. *)
Record table_match : Type := TableMatch {
  table_name : string;
  columns_block : string
}.

(** [r"CREATE TABLE (\w+)\s*\((.*?)\);"] with [DOTALL | IGNORECASE],
    tried at the start of [s].  A word character is neither a space nor
    a parenthesis, and a space is not a parenthesis: giving a character
    back from [\w+] or from [\s*] never lets the next item match, so the
    greedy choice is the only one the backtracking matcher can
    succeed with.  The lazy [.*?] stops at the first [");"]. *)
Definition match_table (s : string) : option table_match :=
  match strip_prefix eqb_nocase "CREATE TABLE " s with
  | None => None
  | Some r1 =>
      let '(name, r2) := span is_word r1 in
      if is_empty name then None
      else
        let '(_, r3) := span is_space r2 in
        match r3 with
        | String c r4 =>
            if Ascii.eqb c "(" then
              match lazy_until ");" r4 with
              | Some (body, _) => Some (TableMatch name body)
              | None => None
              end
            else None
        | EmptyString => None
        end
  end.

(** [table_pattern.search(s)]: the match at the leftmost position that
    has one. *)
Fixpoint search_table (s : string) : option table_match :=
  match match_table s with
  | Some m => Some m
  | None =>
      match s with
      | EmptyString => None
      | String _ s' => search_table s'
      end
  end.

(** A match of [column_pattern]: [m.start()], the two groups and
    [m.end()]. *)
Record column_match : Type := ColumnMatch {
  m_start : nat;
  group1 : string;
  group2 : string;
  m_end : nat
}.

(** [r"^\s*(\w+)\s+([\w\(\)]+)"] after the anchor, tried at the start of
    [s]: the two groups and the text after the match.  As for
    [match_table], each class excludes the first character of the item
    that follows it, so the greedy choice is the only successful one. *)
Definition match_column (s : string) : option (string * string * string) :=
  let '(_, r1) := span is_space s in
  let '(g1, r2) := span is_word r1 in
  if is_empty g1 then None
  else
    let '(ws, r3) := span is_space r2 in
    if is_empty ws then None
    else
      let '(g2, r4) := span is_type_char r3 in
      if is_empty g2 then None else Some (g1, g2, r4).

(** [column_pattern.finditer(s)] from offset [pos] on, where [bol] tells
    whether [^] (with [re.MULTILINE]) holds at [pos]: at offset 0 and
    after a newline.  A match is never empty and the scan resumes where
    it ends; the last character of a match is of the class [[\w\(\)]],
    not a newline, so [^] does not hold there.  [fuel] bounds the number
    of steps, and the length of the text is enough
    ([finditer_from_fuel]). *)
Fixpoint finditer_from (fuel pos : nat) (bol : bool) (s : string)
  : list column_match :=
  match fuel with
  | O => []
  | S fuel' =>
      match s with
      | EmptyString => []
      | String c s' =>
          match (if bol then match_column s else None) with
          | Some (g1, g2, rest) =>
              let e := pos + (String.length s - String.length rest) in
              ColumnMatch pos g1 g2 e :: finditer_from fuel' e false rest
          | None => finditer_from fuel' (S pos) (is_newline c) s'
          end
      end
  end.

Definition finditer (s : string) : list column_match :=
  finditer_from (String.length s) 0 true s.

End Regex.

(* ================================================================== *)
(** ** [OrderedDict] *)

Definition ordered_dict : Type := list (string * string).

(** [d[k] = v]: a new key goes last, a key already there keeps its place
    and takes the new value. *)
Fixpoint od_set (k v : string) (d : ordered_dict) : ordered_dict :=
  match d with
  | [] => [(k, v)]
  | (k', v') :: d' =>
      if String.eqb k k' then (k, v) :: d' else (k', v') :: od_set k v d'
  end.

Definition od_keys (d : ordered_dict) : list string := map fst d.

Fixpoint od_get (k : string) (d : ordered_dict) : option string :=
  match d with
  | [] => None
  | (k', v') :: d' => if String.eqb k k' then Some v' else od_get k d'
  end.

(* ================================================================== *)
(** ** [parse_sql_schema] *)

(** The body of the loop over [column_pattern.finditer(columns_str)]. *)
Definition add_column (schema : ordered_dict) (col_match : Regex.column_match)
  : ordered_dict :=
  let col_name := Str.strip (Regex.group1 col_match) in
  let col_type := Str.upper (Str.split_space_head (Regex.group2 col_match)) in
  od_set col_name col_type schema.

(** [parse_sql_schema], from the content of the schema file. *)
Definition parse_sql_schema (sql_content : string) : result ordered_dict :=
  match Regex.search_table sql_content with
  | None => Raise (ValueError "No valid CREATE TABLE statement found")
  | Some m =>
      let columns_str := Regex.columns_block m in
      Ok (fold_left add_column (Regex.finditer columns_str) [])
  end.

(** The column that a match declares: the key and the value of the
    assignment in the loop. *)
Definition declaration (col_match : Regex.column_match) : string * string :=
  (Str.strip (Regex.group1 col_match),
   Str.upper (Str.split_space_head (Regex.group2 col_match))).

(** The columns that the text of a body declares, in the order of the
    text. *)
Definition declarations (columns_str : string) : list (string * string) :=
  map declaration (Regex.finditer columns_str).

(** The names of [l] in the order of their first occurrences. *)
Fixpoint first_occurrences (l : list string) : list string :=
  match l with
  | [] => []
  | x :: l' => x :: filter (fun y => y <> x) (first_occurrences l')
  end.

(** *** Schema files with one column definition at the start of each line *)

Module Ddl.
Import Chars Str.

Definition nl : string := String "010" EmptyString.

(** A line of the body: white space, a column name, white space, a type
    token, and the rest of the line (constraints, a comma, further
    definitions). *)
Record column_line : Type := ColumnLine {
  indent : string;
  name : string;
  gap : string;
  type_token : string;
  trailer : string
}.

Definition line_text (l : column_line) : string :=
  indent l +:+ name l +:+ gap l +:+ type_token l +:+ trailer l +:+ nl.

Definition body_text (lines : list column_line) : string :=
  fold_right (fun l rest => line_text l +:+ rest) EmptyString lines.

Definition create_table (table : string) (lines : list column_line) : string :=
  "CREATE TABLE " +:+ table +:+ " (" +:+ body_text lines +:+ ");".

Definition identifier (s : string) : bool :=
  negb (is_empty s) && all is_word s.

(** The first character of [s], if any, is outside the class [p]. *)
Definition starts_outside (p : ascii -> bool) (s : string) : bool :=
  match s with
  | EmptyString => true
  | String c _ => negb (p c)
  end.

(** The rest of a line has no newline and no semicolon, and does not go
    on with the type token. *)
Definition trailer_ok (t : string) : bool :=
  all (fun c => negb (is_newline c) && negb (Ascii.eqb c ";")) t
  && starts_outside is_type_char t.

Definition line_ok (l : column_line) : bool :=
  all is_space (indent l)
  && identifier (name l)
  && negb (is_empty (gap l)) && all is_space (gap l)
  && negb (is_empty (type_token l)) && all is_type_char (type_token l)
  && trailer_ok (trailer l).


End Ddl.

(** *** Where a match lies in the text *)



(* ================================================================== *)
(** ** Cells *)

(** A cell of a data frame: a Python scalar.  The float NaN is
    [PyFloat nan]. *)
Inductive value : Type :=
| PyNone
| PyStr (s : string)
| PyInt (z : Z)
| PyFloat (f : float)
| PyBool (b : bool)
| Timestamp (ns : Z)
| NaT.

Definition NaN : value := PyFloat PrimFloat.nan.

(** [pd.isnull(v)] and [pd.notnull(v)] *)
Definition isnull (v : value) : bool :=
  match v with
  | PyNone | NaT => true
  | PyFloat f => PrimFloat.is_nan f
  | _ => false
  end.

Definition notnull (v : value) : bool := negb (isnull v).

(** [v == 0] *)
Definition is_zero (v : value) : bool :=
  match v with
  | PyInt z => (z =? 0)%Z
  | PyFloat f => PrimFloat.eqb f 0%float
  | PyBool b => negb b
  | _ => false
  end.

(** [bool(v)] *)
Definition truthy (v : value) : bool :=
  match v with
  | PyNone => false
  | PyStr s => negb (Str.is_empty s)
  | PyInt z => negb (z =? 0)%Z
  | PyFloat f => negb (PrimFloat.eqb f 0%float)
  | PyBool b => b
  | Timestamp _ | NaT => true
  end.

(** [v == s] for a string [s] *)
Definition eq_str (v : value) (s : string) : bool :=
  match v with
  | PyStr s' => String.eqb s' s
  | _ => false
  end.

(** One cell of [replace(to_replace, value)] with a list [to_replace]: a
    cell equal to one of the strings becomes [value] (in [clean_data] the
    [None] that the call passes), any other cell is kept. *)
Definition replace_cell (to_replace : list string) (new : value) (v : value)
  : value :=
  if existsb (eq_str v) to_replace then new else v.

(** One cell of [where(cond, other)] with [cond = notnull()], in a
    column that can hold [other]: a null cell becomes [other], any other
    cell is kept. *)
Definition where_notnull_cell (other : value) (v : value) : value :=
  if notnull v then v else other.

(** One cell of [astype(bool)] *)
Definition astype_bool_cell (v : value) : value := PyBool (truthy v).

(* ================================================================== *)
(** ** Data frames *)

Abbreviation series := (list value).

Record DataFrame : Type := mkDataFrame {
  nrows : nat;
  columns : list (string * series)
}.

Definition labels (d : DataFrame) : list string := map fst (columns d).

Fixpoint assoc (l : string) (cs : list (string * series)) : option series :=
  match cs with
  | [] => None
  | (l', s) :: cs' => if String.eqb l l' then Some s else assoc l cs'
  end.

Definition column (d : DataFrame) (l : string) : option series :=
  assoc l (columns d).

Definition cell (d : DataFrame) (l : string) (i : nat) : option value :=
  match column d l with
  | Some s => s !! i
  | None => None
  end.

(** Unique labels, and every column as long as the index. *)
Definition wf_frame (d : DataFrame) : Prop :=
  NoDup (labels d) /\ Forall (fun c => length (snd c) = nrows d) (columns d).

(** The frame [d[ls]]: the columns labelled [ls], in the order of [ls];
    [KeyError] with the labels that [d] does not have. *)
Definition take_columns (d : DataFrame) (ls : list string) : result DataFrame :=
  match filter (fun l => column d l = None) ls with
  | [] =>
      Ok (mkDataFrame (nrows d)
            (omap (fun l => match column d l with
                            | Some s => Some (l, s)
                            | None => None
                            end) ls))
  | missing => Raise (KeyError missing)
  end.

Definition map_cells (f : value -> value) (d : DataFrame) : DataFrame :=
  mkDataFrame (nrows d) (map (fun c => (fst c, map f (snd c))) (columns d)).

Definition map_columns (f : series -> series) (d : DataFrame) : DataFrame :=
  mkDataFrame (nrows d) (map (fun c => (fst c, f (snd c))) (columns d)).

(** [d[l] = s] on the list of columns: a label of [d] keeps its place, a
    new one goes last. *)
Fixpoint set_assoc (l : string) (s : series) (cs : list (string * series))
  : list (string * series) :=
  match cs with
  | [] => [(l, s)]
  | (l', s') :: cs' =>
      if String.eqb l l' then (l, s) :: cs' else (l', s') :: set_assoc l s cs'
  end.

Definition set_column (l : string) (s : series) (d : DataFrame) : DataFrame :=
  mkDataFrame (nrows d) (set_assoc l s (columns d)).

(* ================================================================== *)
(** ** The store of data frames, and the monad of state and exceptions *)

Abbreviation ref := positive.
Abbreviation store := (gmap positive DataFrame).

Definition M (A : Type) : Type := store -> result A * store.

Definition ret {A} (a : A) : M A := fun h => (Ok a, h).
Definition raise {A} (e : exn) : M A := fun h => (Raise e, h).
Definition bind {A B} (c : M A) (k : A -> M B) : M B :=
  fun h =>
    match c h with
    | (Ok a, h') => k a h'
    | (Raise e, h') => (Raise e, h')
    end.

Notation "x <- c ;; k" := (bind c (fun x => k))
  (at level 100, c at next level, right associativity).
Notation "c ;; k" := (bind c (fun _ => k))
  (at level 100, right associativity).

(** A new object. *)
Definition new (d : DataFrame) : M ref :=
  fun h => let r := fresh (dom h) in (Ok r, <[r := d]> h).

Definition load (r : ref) : M DataFrame :=
  fun h =>
    match h !! r with
    | Some d => (Ok d, h)
    | None => (Raise InvalidReference, h)
    end.

(** A change of the object [r] in place. *)
Definition modify (r : ref) (f : DataFrame -> DataFrame) : M unit :=
  fun h =>
    match h !! r with
    | Some d => (Ok tt, <[r := f d]> h)
    | None => (Raise InvalidReference, h)
    end.

Fixpoint for_each {A} (l : list A) (body : A -> M unit) : M unit :=
  match l with
  | [] => ret tt
  | a :: l' => body a ;; for_each l' body
  end.

(** *** The [pandas] calls of [clean_data] *)

(** [df[labels]] *)
Definition getitem_labels (df : ref) (ls : list string) : M ref :=
  d <- load df ;;
  match take_columns d ls with
  | Ok d' => new d'
  | Raise e => raise e
  end.

(** [df.copy()] *)
Definition copy (df : ref) : M ref :=
  d <- load df ;; new d.

(** [df.replace(to_replace, value, inplace=True)] *)
Definition replace_inplace (df : ref) (to_replace : list string) (v : value)
  : M unit :=
  modify df (map_cells (replace_cell to_replace v)).

(** [df[col]] *)
Definition getitem (df : ref) (col : string) : M series :=
  d <- load df ;;
  match column d col with
  | Some s => ret s
  | None => raise (KeyError [col])
  end.

(** [df[col] = s] *)
Definition setitem (df : ref) (col : string) (s : series) : M unit :=
  modify df (set_column col s).

(** [dtype in (a, b, c)] *)
Definition in_tuple (dtype : string) (t : list string) : bool :=
  existsb (String.eqb dtype) t.

(* ================================================================== *)
(** ** [clean_data] *)

(** The type classes of the specification, and the class that the chain
    of tests in the loop of [clean_data] gives to a declared type. *)
Inductive type_class : Type :=
| INTEGER | FLOATING | BOOLEAN | DATE | TEXT | PASSTHROUGH.

Definition classify (dtype : string) : type_class :=
  if in_tuple dtype ["INT"; "INTEGER"; "BIGINT"] then INTEGER
  else if in_tuple dtype ["FLOAT"; "NUMERIC"; "DECIMAL"] then FLOATING
  else if String.eqb dtype "BOOLEAN" then BOOLEAN
  else if String.eqb dtype "DATE" then DATE
  else if String.eqb dtype "TEXT" then TEXT
  else PASSTHROUGH.

Section Cleaning.

(** What [pd.to_numeric(s, errors='coerce')] makes of a cell of the
    series [s] that is neither [None] nor NaN, what
    [pd.to_datetime(s, errors='coerce')] makes of a non-null cell of
    [s], and [str] of a float other than NaN and of a timestamp. *)
Variable numeric_cell : series -> value -> value.
Variable datetime_cell : series -> value -> value.
Variable str_float : float -> string.
Variable str_timestamp : Z -> string.

(** Two steps of [clean_data] treat a null cell as the installed [pandas]
    does, and the source names no version of it.
    - [str_missing v] is what [astype(str)] makes of the null cell [v]:
      the string [str(v)] before pandas 3, the missing value of the
      string column from pandas 3 on.
    - [keeps_null s] tells whether the column [s] has a type with a null
      of its own (NaN in a [float64] column, NaT in a [datetime64] one),
      which [where] leaves in place of the [None] it is given. *)
Variable str_missing : value -> value.
Variable keeps_null : series -> bool.

(** [pd.to_numeric(s, errors='coerce')] *)
Definition to_numeric (s : series) : series :=
  map (fun v => match v with
                | PyNone => NaN
                | PyFloat f => if PrimFloat.is_nan f then NaN else numeric_cell s v
                | _ => numeric_cell s v
                end) s.

(** [pd.to_datetime(s, errors='coerce')] *)
Definition to_datetime (s : series) : series :=
  map (fun v => if isnull v then NaT else datetime_cell s v) s.

(** [str(v)], the string that [astype(str)] makes of a cell that is not
    null. *)
Definition py_str (v : value) : string :=
  match v with
  | PyNone => "None"
  | PyStr s => s
  | PyInt z => NilZero.string_of_int (Z.to_int z)
  | PyFloat f => if PrimFloat.is_nan f then "nan" else str_float f
  | PyBool b => if b then "True" else "False"
  | Timestamp ns => str_timestamp ns
  | NaT => "NaT"
  end.

(** [s.astype(bool)]: [bool] of every cell, null or not. *)
Definition astype_bool (s : series) : series := map astype_bool_cell s.

(** [s.astype(str)]: [str] of every cell that is not null. *)
Definition astype_str (s : series) : series :=
  map (fun v => if isnull v then str_missing v else PyStr (py_str v)) s.

(** One column of [where(notnull(), other)]. *)
Definition where_notnull_series (other : value) (s : series) : series :=
  if keeps_null s then s else map (where_notnull_cell other) s.

(** [df.where(df.notnull(), other)] *)
Definition where_notnull (df : ref) (other : value) : M ref :=
  d <- load df ;; new (map_columns (where_notnull_series other) d).

(** The body of the loop over [schema.items()]. *)
Definition convert_column (df : ref) (col dtype : string) : M unit :=
  if in_tuple dtype ["INT"; "INTEGER"; "BIGINT"] then
    s <- getitem df col ;; setitem df col (to_numeric s)
  else if in_tuple dtype ["FLOAT"; "NUMERIC"; "DECIMAL"] then
    s <- getitem df col ;; setitem df col (to_numeric s)
  else if String.eqb dtype "BOOLEAN" then
    s <- getitem df col ;; setitem df col (astype_bool s)
  else if String.eqb dtype "DATE" then
    s <- getitem df col ;; setitem df col (to_datetime s)
  else if String.eqb dtype "TEXT" then
    s <- getitem df col ;; setitem df col (astype_str s)
  else ret tt.

(** [clean_data(df, schema)]: the argument and the result are references
    into the store. *)
Definition clean_data (df : ref) (schema : ordered_dict) : M ref :=
  selected <- getitem_labels df (od_keys schema) ;;
  df <- copy selected ;;
  replace_inplace df ["Not Provided"; ""] PyNone ;;
  for_each schema (fun item => convert_column df (fst item) (snd item)) ;;
  where_notnull df PyNone.

(** *** The loop, as a function on frames *)

(** The series that the branch taken for [dtype] assigns. *)
Definition convert_series (dtype : string) (s : series) : series :=
  if in_tuple dtype ["INT"; "INTEGER"; "BIGINT"] then to_numeric s
  else if in_tuple dtype ["FLOAT"; "NUMERIC"; "DECIMAL"] then to_numeric s
  else if String.eqb dtype "BOOLEAN" then astype_bool s
  else if String.eqb dtype "DATE" then to_datetime s
  else if String.eqb dtype "TEXT" then astype_str s
  else s.

(** The cell that this branch puts in place of the cell [v] of the
    column [s]. *)
Definition convert_cell (dtype : string) (s : series) (v : value) : value :=
  match classify dtype with
  | INTEGER | FLOATING =>
      match v with
      | PyNone => NaN
      | PyFloat f => if PrimFloat.is_nan f then NaN else numeric_cell s v
      | _ => numeric_cell s v
      end
  | BOOLEAN => astype_bool_cell v
  | DATE => if isnull v then NaT else datetime_cell s v
  | TEXT => if isnull v then str_missing v else PyStr (py_str v)
  | PASSTHROUGH => v
  end.

Definition convert_frame (d : DataFrame) (item : string * string) : DataFrame :=
  match column d (fst item) with
  | Some s => set_column (fst item) (convert_series (snd item) s) d
  | None => d
  end.

(** The frame that [clean_data] returns for the selected columns [sel]. *)
Definition cleaned (schema : ordered_dict) (sel : DataFrame) : DataFrame :=
  map_columns (where_notnull_series PyNone)
    (fold_left convert_frame schema
       (map_cells (replace_cell ["Not Provided"; ""] PyNone) sel)).

End Cleaning.


(* ================================================================== *)
(** ** Sample data *)

(** Stand-ins for the library conversions, to run [clean_data] on
    examples: numbers are read from decimal digits only, and no text is
    read as a date. *)
Module Sample.

Fixpoint digits (acc : Z) (s : string) : option Z :=
  match s with
  | EmptyString => Some acc
  | String c s' =>
      if Chars.between 48 57 c
      then digits (10 * acc + Z.of_N (N_of_ascii c - 48)) s'
      else None
  end.

Definition numeric_cell (_ : series) (v : value) : value :=
  match v with
  | PyInt _ | PyFloat _ => v
  | PyBool b => PyInt (if b then 1 else 0)
  | PyStr s =>
      if Str.is_empty s then NaN
      else match digits 0 s with Some z => PyInt z | None => NaN end
  | _ => NaN
  end.

Definition datetime_cell (_ : series) (v : value) : value :=
  match v with
  | Timestamp _ => v
  | _ => NaT
  end.

Definition str_float (_ : float) : string := "<float>".
Definition str_timestamp (_ : Z) : string := "<timestamp>".

(** A null cell stays missing under [astype(str)], and a column of
    numbers only or of timestamps only keeps its own null under
    [where]. *)
Definition str_missing (_ : value) : value := NaN.

Definition keeps_null (s : series) : bool :=
  forallb (fun v => match v with PyInt _ | PyFloat _ => true | _ => false end) s
  || forallb (fun v => match v with Timestamp _ | NaT => true | _ => false end) s.

(** The table of the end-to-end example of the specification, with a
    column that the schema does not name. *)
Definition raw : DataFrame :=
  mkDataFrame 2
    [("id", [PyInt 1; PyInt 2]);
     ("name", [PyStr "Alice"; PyStr "Bob"]);
     ("salary", [PyStr "50000"; PyStr "Not Provided"]);
     ("active", [PyStr "true"; PyStr ""]);
     ("note", [PyStr "x"; PyStr "y"])].

Definition schema : ordered_dict :=
  [("id", "INTEGER"); ("name", "TEXT"); ("salary", "NUMERIC");
   ("active", "BOOLEAN")].

(** The store of the caller: the raw table is its only object. *)
Definition heap : store := {[ 1%positive := raw ]}.

(** The missing-column example of the specification: the header has
    only [name], the schema names [salary]. *)
Definition names_only : DataFrame := mkDataFrame 1 [("name", [PyStr "Ann"])].
Definition names_heap : store := {[ 1%positive := names_only ]}.
Definition salary_schema : ordered_dict := [("salary", "INTEGER")].

(** A schema file with a definition at the start of each line, the
    second line with a second definition. *)
Definition lines : list Ddl.column_line :=
  [Ddl.ColumnLine (Ddl.nl +:+ "  ") "id" " " "INTEGER" " PRIMARY KEY,";
   Ddl.ColumnLine "  " "name" " " "text" ", nick TEXT,";
   Ddl.ColumnLine "  " "salary" "  " "NUMERIC(10" ",2)"].

(** A schema file that declares [id] twice, and the lines of its
    body. *)
Definition twice : string :=
  "CREATE TABLE t (" +:+ Ddl.nl +:+
  "  id INTEGER," +:+ Ddl.nl +:+
  "  name TEXT," +:+ Ddl.nl +:+
  "  id TEXT" +:+ Ddl.nl +:+ ");".

Definition twice_lines : list Ddl.column_line :=
  [Ddl.ColumnLine (Ddl.nl +:+ "  ") "id" " " "INTEGER" ",";
   Ddl.ColumnLine "  " "name" " " "TEXT" ",";
   Ddl.ColumnLine "  " "id" " " "TEXT" ""].

End Sample.

(* ================================================================== *)
(** ** The table name of [load_csv_to_postgres] *)

Module Loader.
Import Chars Str.

(** [r"CREATE TABLE (\w+)"] with [re.IGNORECASE], tried at the start of
    [s]: group 1, the longest run of word characters after the keyword. *)
Definition match_table_name (s : string) : option string :=
  match strip_prefix eqb_nocase "CREATE TABLE " s with
  | None => None
  | Some r =>
      let '(name, _) := span is_word r in
      if is_empty name then None else Some name
  end.

(** [re.search(r"CREATE TABLE (\w+)", s, re.IGNORECASE)]: group 1 of the
    match at the leftmost position that has one; [None] when [search]
    returns [None], on which [.group(1)] fails. *)
Fixpoint search_table_name (s : string) : option string :=
  match match_table_name s with
  | Some name => Some name
  | None =>
      match s with
      | EmptyString => None
      | String _ s' => search_table_name s'
      end
  end.

End Loader.

(* ================================================================== *)
(** ** Notions for the further properties *)

(** The number of newlines of a text: one less than its number of
    lines. *)
Fixpoint count_newlines (s : string) : nat :=
  match s with
  | EmptyString => 0
  | String c s' => (if Chars.is_newline c then 1 else 0) + count_newlines s'
  end.

(** The cell is one of the two strings that [clean_data] replaces. *)
Definition is_sentinel (v : value) : bool :=
  existsb (eq_str v) ["Not Provided"; ""].

Module Script.
Import Chars Str.

(** A schema file: some text, the keyword in any letter case, the table
    name, white space, the parenthesized body of column lines, [");"]
    and more text. *)
Definition schema_file (before keyword table space : string)
    (lines : list Ddl.column_line) (after : string) : string :=
  before +:+ keyword +:+ table +:+ space +:+ "("
  +:+ Ddl.body_text lines +:+ ");" +:+ after.

(** No character of the text is a [C] or a [c]. *)
Definition no_letter_c (s : string) : bool :=
  all (fun c => negb (eqb_nocase "C" c)) s.

(** A schema file written in lower case, with a comment before the
    statement and another statement after it. *)
Definition lower_case_file : string :=
  schema_file ("-- the staff" +:+ Ddl.nl) "create table " "staff" "  "
    [Ddl.ColumnLine (Ddl.nl +:+ "  ") "id" " " "integer" " primary key,";
     Ddl.ColumnLine "  " "name" " " "text" ","]
    (Ddl.nl +:+ "CREATE TABLE other (x INT);").

End Script.

(** A table with missing values and a column of a type that
    [clean_data] does not convert, and the same table without its last
    column. *)
Module Staff.

Definition raw : DataFrame :=
  mkDataFrame 3
    [("code", [PyStr "a1"; PyStr ""; NaN]);
     ("nick", [PyStr "Al"; PyStr "Not Provided"; PyInt 7]);
     ("grade", [PyNone; NaN; PyStr "3"]);
     ("active", [NaN; PyStr "yes"; PyBool false]);
     ("remark", [PyStr "x"; PyStr "y"; PyStr "z"])].

Definition narrow : DataFrame :=
  mkDataFrame 3
    [("code", [PyStr "a1"; PyStr ""; NaN]);
     ("nick", [PyStr "Al"; PyStr "Not Provided"; PyInt 7]);
     ("grade", [PyNone; NaN; PyStr "3"]);
     ("active", [NaN; PyStr "yes"; PyBool false])].

Definition schema : ordered_dict :=
  [("code", "VARCHAR(8)"); ("nick", "TEXT"); ("grade", "INTEGER");
   ("active", "BOOLEAN")].

Definition heap : store := {[ 1%positive := raw ]}.
Definition narrow_heap : store := {[ 2%positive := narrow ]}.

End Staff.

(* ================================================================== *)
(** ** Characters, strings and the two patterns *)

Section StringFacts.
Import Chars Str.

Local Ltac by_char c :=
  destruct c as [[] [] [] [] [] [] [] []]; vm_compute; congruence.

Lemma word_not_space c : is_word c = true -> is_space c = false.
Proof. by_char c. Qed.

Lemma space_not_word c : is_space c = true -> is_word c = false.
Proof. by_char c. Qed.

Lemma space_not_type_char c : is_space c = true -> is_type_char c = false.
Proof. by_char c. Qed.

Lemma type_char_not_space c : is_type_char c = true -> is_space c = false.
Proof. by_char c. Qed.

Lemma word_is_type_char c : is_word c = true -> is_type_char c = true.
Proof. by_char c. Qed.

Lemma type_char_not_blank c : is_type_char c = true -> Ascii.eqb c " " = false.
Proof. by_char c. Qed.

Lemma type_char_not_semicolon c :
  is_type_char c = true -> Ascii.eqb c ";" = false.
Proof. by_char c. Qed.

Lemma space_not_semicolon c : is_space c = true -> Ascii.eqb c ";" = false.
Proof. by_char c. Qed.

Lemma type_char_not_newline c : is_type_char c = true -> is_newline c = false.
Proof. by_char c. Qed.

Lemma newline_not_type_char c : is_newline c = true -> is_type_char c = false.
Proof. by_char c. Qed.

Lemma append_cons x a b : String x a +:+ b = String x (a +:+ b).
Proof. reflexivity. Qed.

Lemma append_nil a : EmptyString +:+ a = a.
Proof. reflexivity. Qed.

Lemma length_append a b :
  String.length (a +:+ b) = String.length a + String.length b.
Proof.
  induction a as [|c a IH]; [done|]. rewrite append_cons. simpl. by f_equal.
Qed.

Lemma append_assoc a b c : (a +:+ b) +:+ c = a +:+ (b +:+ c).
Proof.
  induction a as [|x a IH]; [done|]. rewrite !append_cons. by f_equal.
Qed.

Lemma all_impl (p q : ascii -> bool) s :
  (forall c, p c = true -> q c = true) -> all p s = true -> all q s = true.
Proof.
  intros Hpq. induction s as [|c s IH]; simpl; [done|].
  rewrite !andb_true_iff. intros [Hc Hs]. auto.
Qed.

Lemma all_app p a b : all p (a +:+ b) = all p a && all p b.
Proof.
  induction a as [|c a IH]; [done|]. rewrite append_cons. simpl.
  by rewrite IH, andb_assoc.
Qed.

(** A greedy class stops where the class stops. *)
Lemma span_app p a b :
  all p a = true -> Ddl.starts_outside p b = true ->
  span p (a +:+ b) = (a, b).
Proof.
  intros Ha Hb. induction a as [|c a IH].
  - rewrite append_nil. destruct b as [|c b]; [done|]. simpl in *.
    apply negb_true_iff in Hb. by rewrite Hb.
  - rewrite append_cons. simpl in *.
    apply andb_true_iff in Ha as [Hc Ha]. by rewrite Hc, IH.
Qed.

Lemma span_spec p s a b :
  span p s = (a, b) ->
  s = a +:+ b /\ all p a = true /\ Ddl.starts_outside p b = true.
Proof.
  revert a b. induction s as [|c s IH]; intros a b; simpl.
  - intros [= <- <-]. done.
  - destruct (p c) eqn:Hc.
    + destruct (span p s) as [a' b'] eqn:E. intros [= <- <-].
      destruct (IH a' b' eq_refl) as (-> & Ha & Hb). rewrite append_cons.
      simpl. by rewrite Hc, Ha.
    + intros [= <- <-]. simpl. by rewrite Hc.
Qed.

Lemma span_length p s a b :
  span p s = (a, b) -> String.length s = String.length a + String.length b.
Proof. intros H. apply span_spec in H as (-> & _). apply length_append. Qed.

Lemma is_empty_length s : is_empty s = false -> 0 < String.length s.
Proof. destruct s; simpl; [done | lia]. Qed.

(** [strip] and [split(' ')] leave a word and a type token as they
    are. *)
Lemma rstrip_no_space s : all (fun c => negb (is_space c)) s = true -> rstrip s = s.
Proof.
  induction s as [|c s IH]; simpl; [done|].
  rewrite andb_true_iff, negb_true_iff. intros [Hc Hs].
  rewrite (IH Hs), Hc. by destruct s.
Qed.

Lemma lstrip_no_space s : all (fun c => negb (is_space c)) s = true -> lstrip s = s.
Proof.
  destruct s as [|c s]; simpl; [done|].
  rewrite andb_true_iff, negb_true_iff. by intros [-> _].
Qed.

Lemma strip_word s : all is_word s = true -> strip s = s.
Proof.
  intros H. assert (H' : all (fun c => negb (is_space c)) s = true).
  { revert H. apply all_impl. intros c Hc.
    by rewrite (word_not_space c Hc). }
  unfold strip. by rewrite (lstrip_no_space s H'), rstrip_no_space.
Qed.

Lemma split_space_head_type s :
  all is_type_char s = true -> split_space_head s = s.
Proof.
  induction s as [|c s IH]; simpl; [done|].
  rewrite andb_true_iff. intros [Hc Hs].
  by rewrite (type_char_not_blank c Hc), (IH Hs).
Qed.

Lemma starts_outside_app (p q : ascii -> bool) a b :
  is_empty a = false -> all q a = true ->
  (forall c, q c = true -> p c = false) ->
  Ddl.starts_outside p (a +:+ b) = true.
Proof.
  destruct a as [|c a]; [done|]. intros _ Ha Hqp.
  rewrite append_cons. cbn [all] in Ha. apply andb_true_iff in Ha as [Hc _].
  simpl. by rewrite (Hqp c Hc).
Qed.

End StringFacts.

Section PatternFacts.
Import Chars Str Regex.

(** The groups of a match of the column pattern, and its length. *)
Lemma match_column_spec s g1 g2 rest :
  match_column s = Some (g1, g2, rest) ->
  exists ws1 ws2,
    s = ws1 +:+ g1 +:+ ws2 +:+ g2 +:+ rest /\
    all is_space ws1 = true /\
    is_empty g1 = false /\ all is_word g1 = true /\
    is_empty ws2 = false /\ all is_space ws2 = true /\
    is_empty g2 = false /\ all is_type_char g2 = true /\
    Ddl.starts_outside is_type_char rest = true.
Proof.
  unfold match_column.
  destruct (span is_space s) as [ws1 r1] eqn:E1.
  destruct (span is_word r1) as [w r2] eqn:E2.
  destruct (is_empty w) eqn:Hw; [done|].
  destruct (span is_space r2) as [ws2 r3] eqn:E3.
  destruct (is_empty ws2) eqn:Hws2; [done|].
  destruct (span is_type_char r3) as [t r4] eqn:E4.
  destruct (is_empty t) eqn:Ht; [done|].
  intros [= <- <- <-].
  apply span_spec in E1 as (-> & H1 & _).
  apply span_spec in E2 as (-> & H2 & _).
  apply span_spec in E3 as (-> & H3 & _).
  apply span_spec in E4 as (-> & H4 & H5).
  by exists ws1, ws2.
Qed.

(** Conversely, a text that splits into white space, a word, white
    space, a type token that the text does not continue, and a rest, is
    matched with these groups. *)
Lemma match_column_complete ws1 g1 ws2 g2 rest :
  all is_space ws1 = true ->
  is_empty g1 = false -> all is_word g1 = true ->
  is_empty ws2 = false -> all is_space ws2 = true ->
  is_empty g2 = false -> all is_type_char g2 = true ->
  Ddl.starts_outside is_type_char rest = true ->
  match_column (ws1 +:+ g1 +:+ ws2 +:+ g2 +:+ rest) = Some (g1, g2, rest).
Proof.
  intros H1 Hg1 H2 Hws2 H3 Hg2 H4 H5. unfold match_column.
  rewrite (span_app is_space ws1); [|done|].
  2: { apply (starts_outside_app _ is_word); auto using word_not_space. }
  rewrite (span_app is_word g1); [|done|].
  2: { apply (starts_outside_app _ is_space); auto using space_not_word. }
  rewrite Hg1.
  rewrite (span_app is_space ws2); [|done|].
  2: { apply (starts_outside_app _ is_type_char);
         auto using type_char_not_space. }
  rewrite Hws2.
  rewrite (span_app is_type_char g2); [by rewrite Hg2 | done | done].
Qed.

Lemma match_column_shorter s g1 g2 rest :
  match_column s = Some (g1, g2, rest) ->
  String.length rest < String.length s.
Proof.
  intros H. apply match_column_spec in H
    as (ws1 & ws2 & -> & _ & Hg1 & _).
  apply is_empty_length in Hg1. rewrite !length_append. lia.
Qed.

(** The scan never runs out of fuel: any amount of at least the length
    of the text gives the same matches. *)
Lemma finditer_from_fuel f1 f2 pos bol s :
  String.length s <= f1 -> String.length s <= f2 ->
  finditer_from f1 pos bol s = finditer_from f2 pos bol s.
Proof.
  revert f2 pos bol s. induction f1 as [|f1 IH]; intros f2 pos bol s H1 H2.
  - destruct s; simpl in H1; [|lia]. by destruct f2.
  - destruct f2 as [|f2].
    { destruct s; simpl in H2; [done | lia]. }
    destruct s as [|c s]; [done|]. simpl in H1, H2.
    cbn [finditer_from].
    destruct (if bol then match_column (String c s) else None)
      as [[[g1 g2] rest]|] eqn:E.
    + f_equal. destruct bol; [|done].
      apply match_column_shorter in E. simpl in E.
      apply IH; lia.
    + apply IH; lia.
Qed.

Lemma finditer_enough_fuel fuel s :
  String.length s <= fuel -> finditer_from fuel 0 true s = finditer s.
Proof. intros H. by apply finditer_from_fuel. Qed.





End PatternFacts.

(* ================================================================== *)
(** ** The schema that [parse_sql_schema] builds *)

Section SchemaFacts.
Import Chars Str Regex.

Implicit Types (k v : string) (d acc : ordered_dict)
  (ds : list (string * string)).

Local Abbreviation assign := (fun acc (kv : string * string) => od_set kv.1 kv.2 acc).

Lemma od_keys_od_set k v d :
  od_keys (od_set k v d) =
  if decide (k ∈ od_keys d) then od_keys d else od_keys d ++ [k].
Proof.
  unfold od_keys. induction d as [|[k' v'] d IH].
  - destruct (decide (k ∈ map fst [])) as [Hin|_]; [|done].
    by apply elem_of_nil in Hin.
  - cbn [od_set map fst] in *.
    destruct (String.eqb_spec k k') as [->|Hne].
    + destruct (decide (k' ∈ k' :: map fst d)) as [_|Hn]; [done|].
      exfalso. apply Hn. left.
    + cbn [map fst]. rewrite IH.
      destruct (decide (k ∈ map fst d)) as [Hin|Hn];
        destruct (decide (k ∈ k' :: map fst d)) as [Hin'|Hn']; try done.
      * exfalso. apply Hn'. by right.
      * apply elem_of_cons in Hin' as [?|?]; done.
Qed.

Lemma od_get_od_set k' k v d :
  od_get k' (od_set k v d) = if String.eqb k' k then Some v else od_get k' d.
Proof.
  induction d as [|[k0 v0] d IH]; simpl.
  - by destruct (String.eqb k' k).
  - destruct (String.eqb_spec k k0) as [->|Hne]; simpl.
    + by destruct (String.eqb k' k0).
    + rewrite IH. destruct (String.eqb_spec k' k0) as [->|Hne']; [|done].
      destruct (String.eqb_spec k0 k); congruence.
Qed.

Lemma od_get_app k d1 d2 :
  od_get k (d1 ++ d2) =
  match od_get k d1 with Some v => Some v | None => od_get k d2 end.
Proof.
  induction d1 as [|[k' v'] d1 IH]; simpl; [done|].
  by destruct (String.eqb k k').
Qed.

Lemma od_set_fresh k v d : k ∉ od_keys d -> od_set k v d = d ++ [(k, v)].
Proof.
  induction d as [|[k' v'] d IH]; simpl; [done|].
  rewrite not_elem_of_cons. intros [Hne Hn].
  destruct (String.eqb_spec k k'); [done|]. by rewrite IH.
Qed.

Lemma NoDup_od_set k v d : NoDup (od_keys d) -> NoDup (od_keys (od_set k v d)).
Proof.
  intros Hnd. rewrite od_keys_od_set. case_decide; [done|].
  apply NoDup_app. split; [done|]. split.
  - intros x Hx Hx'. apply list_elem_of_singleton in Hx'. by subst.
  - apply NoDup_singleton.
Qed.

Lemma fold_add_column ms acc :
  fold_left add_column ms acc = fold_left assign (map declaration ms) acc.
Proof.
  revert acc. induction ms as [|m ms IH]; intros acc; simpl; [done|].
  apply IH.
Qed.

Lemma fold_assign_NoDup ds acc :
  NoDup (od_keys acc) -> NoDup (od_keys (fold_left assign ds acc)).
Proof.
  revert acc. induction ds as [|[k v] ds IH]; intros acc Hnd; simpl; [done|].
  by apply IH, NoDup_od_set.
Qed.

(** A key stands where it was first assigned... *)
Lemma fold_assign_keys ds acc :
  od_keys (fold_left assign ds acc) =
  od_keys acc
  ++ filter (fun x => x ∉ od_keys acc) (first_occurrences (map fst ds)).
Proof.
  revert acc. induction ds as [|[k v] ds IH]; intros acc; simpl.
  - by rewrite filter_nil, app_nil_r.
  - rewrite IH, od_keys_od_set. destruct (decide (k ∈ od_keys acc)) as [Hin|Hn].
    + rewrite filter_cons_False by tauto.
      rewrite list_filter_filter_l; [done|].
      intros x Hx ->. done.
    + rewrite filter_cons_True by done.
      rewrite <- app_assoc. simpl. do 2 f_equal.
      rewrite list_filter_filter. apply list_filter_iff.
      intros x. rewrite elem_of_app, list_elem_of_singleton. tauto.
Qed.

(** ... and holds the value that was last assigned to it. *)
Lemma fold_assign_get ds acc k :
  od_get k (fold_left assign ds acc) =
  match od_get k (rev ds) with Some v => Some v | None => od_get k acc end.
Proof.
  revert acc. induction ds as [|[k' v'] ds IH]; intros acc; simpl; [done|].
  rewrite IH, od_get_app, od_get_od_set. simpl.
  destruct (od_get k (rev ds)); [done|]. by destruct (String.eqb k k').
Qed.

Lemma fold_assign_fresh ds acc :
  NoDup (map fst ds) ->
  (forall k, k ∈ map fst ds -> k ∉ od_keys acc) ->
  fold_left assign ds acc = acc ++ ds.
Proof.
  revert acc. induction ds as [|[k v] ds IH]; intros acc Hnd Hfresh; simpl.
  - by rewrite app_nil_r.
  - apply NoDup_cons in Hnd as [Hk Hnd].
    rewrite (od_set_fresh k v acc) by (apply Hfresh; left).
    rewrite IH; [by rewrite <- app_assoc | done |].
    intros x Hx. unfold od_keys. rewrite map_app, elem_of_app.
    intros [Hacc|Hx'].
    + by apply (Hfresh x); [right|].
    + simpl in Hx'. apply list_elem_of_singleton in Hx'. by subst.
Qed.

(** The declared types that [clean_data] converts are nine keywords. *)
Lemma classify_keyword dtype :
  classify dtype <> PASSTHROUGH ->
  In dtype ["INT"; "INTEGER"; "BIGINT"; "FLOAT"; "NUMERIC"; "DECIMAL";
            "BOOLEAN"; "DATE"; "TEXT"].
Proof.
  unfold classify, in_tuple. cbn [existsb In].
  repeat match goal with
         | |- context [String.eqb dtype ?k] =>
             destruct (String.eqb_spec dtype k) as [->|_];
             [intros _; repeat (first [left; reflexivity | right]) |]
         end.
  intros H. by destruct H.
Qed.

(** A parameter list attached to any of them hides it from the tests. *)
Lemma classify_with_parameters kw params :
  classify kw <> PASSTHROUGH ->
  classify (kw +:+ "(" +:+ params) = PASSTHROUGH.
Proof.
  intros H. apply classify_keyword in H. cbn [In] in H.
  repeat (destruct H as [<-|H]; [reflexivity|]). done.
Qed.

(** C2, at the failing input.  The type token of [NUMERIC(10,2)] is cut
    at the comma and that of [INT(11)] keeps its parameter: neither is
    the keyword that the tests of [clean_data] compare with, and both
    columns are left as they are.  The bare keywords are classified as
    the claim says, and any parameter list attached to one of them makes
    the type PASSTHROUGH. *)
Theorem parenthesized_type_not_classified :
  parse_sql_schema
    ("CREATE TABLE t (" +:+ Ddl.nl +:+
     "  amount NUMERIC(10,2)," +:+ Ddl.nl +:+
     "  qty INT(11)" +:+ Ddl.nl +:+ ");")
  = Ok [("amount", "NUMERIC(10"); ("qty", "INT(11)")] /\
  classify "NUMERIC(10" = PASSTHROUGH /\ classify "INT(11)" = PASSTHROUGH /\
  map classify ["INT"; "INTEGER"; "BIGINT"; "FLOAT"; "NUMERIC"; "DECIMAL";
                "BOOLEAN"; "DATE"; "TEXT"; "VARCHAR"; "VARCHAR(255)"]
  = [INTEGER; INTEGER; INTEGER; FLOATING; FLOATING; FLOATING;
     BOOLEAN; DATE; TEXT; PASSTHROUGH; PASSTHROUGH] /\
  (forall kw params,
     classify kw <> PASSTHROUGH ->
     classify (kw +:+ "(" +:+ params) = PASSTHROUGH).
Proof.
  repeat split; try reflexivity. apply classify_with_parameters.
Qed.

(** C4: a schema file that declares [id] twice is parsed without an
    error. *)
Lemma duplicate_column_accepted :
  parse_sql_schema
    ("CREATE TABLE t (" +:+ Ddl.nl +:+
     "  id INTEGER," +:+ Ddl.nl +:+
     "  name TEXT," +:+ Ddl.nl +:+
     "  id TEXT" +:+ Ddl.nl +:+ ");")
  = Ok [("id", "TEXT"); ("name", "TEXT")].
Proof. reflexivity. Qed.

(** C5: of four definitions on one line, only the first is recorded. *)
Lemma same_line_definitions_dropped :
  parse_sql_schema
    "CREATE TABLE emp (id INTEGER, name TEXT, salary NUMERIC, active BOOLEAN);"
  = Ok [("id", "INTEGER")].
Proof. reflexivity. Qed.

(** The schema that the loop builds from the declarations [ds]: its
    keys are the declared names, each once, in the order of their first
    declarations, and each has the type of its last declaration; with
    distinct names the schema is the list [ds] itself. *)
Lemma fold_assign_schema ds :
  NoDup (od_keys (fold_left assign ds [])) /\
  od_keys (fold_left assign ds []) = first_occurrences (map fst ds) /\
  (forall k, od_get k (fold_left assign ds []) = od_get k (rev ds)) /\
  (NoDup (map fst ds) -> fold_left assign ds [] = ds).
Proof.
  split; [apply fold_assign_NoDup; constructor|]. split; [|split].
  - rewrite fold_assign_keys. simpl.
    induction (first_occurrences _) as [|x xs IH]; [done|].
    rewrite filter_cons_True by apply not_elem_of_nil. by f_equal.
  - intros k. rewrite fold_assign_get. by destruct (od_get k _).
  - intros Hnd. rewrite fold_assign_fresh; [done..|].
    intros k _. apply not_elem_of_nil.
Qed.

End SchemaFacts.

(* ================================================================== *)
(** ** Schema files with one definition at the start of each line *)

Section LineFacts.
Import Chars Str Regex Ddl.

Local Abbreviation no_semicolon := (fun c : ascii => negb (Ascii.eqb c ";")).
Local Abbreviation inside_line :=
  (fun c : ascii => negb (is_newline c) && negb (Ascii.eqb c ";")).

(** The lazy body of the table pattern ends at the first [");"]: with
    no semicolon before it, at the end of the body. *)
Lemma lazy_until_close body t :
  all no_semicolon body = true ->
  lazy_until ");" (body +:+ ");" +:+ t) = Some (body, t).
Proof.
  induction body as [|c body IH]; [done|].
  rewrite append_cons. cbn [all]. rewrite andb_true_iff.
  intros [Hc Hbody]. cbn [lazy_until].
  assert (Hnone : strip_prefix Ascii.eqb ");" (String c (body +:+ ");" +:+ t))
                  = None).
  { cbn [strip_prefix]. destruct (Ascii.eqb ")" c); [|done].
    destruct body as [|c' body]; [done|].
    rewrite append_cons. cbn [all] in Hbody.
    apply andb_true_iff in Hbody as [Hc' _].
    apply negb_true_iff in Hc'. rewrite Ascii.eqb_sym in Hc'.
    by rewrite Hc'. }
  by rewrite Hnone, (IH Hbody).
Qed.

Lemma line_ok_spec l :
  line_ok l = true ->
  all is_space (indent l) = true /\
  is_empty (name l) = false /\ all is_word (name l) = true /\
  is_empty (gap l) = false /\ all is_space (gap l) = true /\
  is_empty (type_token l) = false /\ all is_type_char (type_token l) = true /\
  all inside_line (trailer l) = true /\
  starts_outside is_type_char (trailer l) = true.
Proof.
  unfold line_ok, identifier, trailer_ok.
  rewrite !andb_true_iff, !negb_true_iff. tauto.
Qed.

(** The column pattern matches the start of a line, up to the end of
    the type token. *)
Lemma match_column_line l rest :
  line_ok l = true ->
  match_column (line_text l +:+ rest)
  = Some (name l, type_token l, trailer l +:+ nl +:+ rest).
Proof.
  intros Hl. apply line_ok_spec in Hl
    as (Hi & Hn0 & Hn & Hg0 & Hg & Ht0 & Ht & _ & Htr).
  unfold line_text. rewrite !append_assoc.
  apply match_column_complete; try done.
  destruct (trailer l) as [|c t]; [done|]. by rewrite append_cons.
Qed.

Lemma finditer_from_match fuel pos s g1 g2 rest :
  match_column s = Some (g1, g2, rest) ->
  finditer_from (S fuel) pos true s
  = ColumnMatch pos g1 g2 (pos + (String.length s - String.length rest))
    :: finditer_from fuel (pos + (String.length s - String.length rest))
         false rest.
Proof.
  intros H. destruct s as [|c s]; [done|]. cbn [finditer_from].
  by rewrite H.
Qed.

(** After a match the scan goes on to the end of the line. *)
Lemma finditer_from_trailer t fuel pos rest :
  all inside_line t = true ->
  finditer_from (String.length t + 1 + fuel) pos false (t +:+ nl +:+ rest)
  = finditer_from fuel (pos + String.length t + 1) true rest.
Proof.
  revert pos. induction t as [|c t IH]; intros pos Ht.
  - cbn. by rewrite Nat.add_0_r, Nat.add_1_r.
  - rewrite append_cons. cbn [all] in Ht.
    apply andb_true_iff in Ht as [Hc Ht].
    apply andb_true_iff in Hc as [Hc _]. apply negb_true_iff in Hc.
    cbn [String.length Nat.add finditer_from]. rewrite Hc, (IH _ Ht).
    f_equal. lia.
Qed.

Lemma finditer_lines lines fuel pos :
  Forall (fun l => line_ok l = true) lines ->
  String.length (body_text lines) <= fuel ->
  map (fun m => (group1 m, group2 m))
    (finditer_from fuel pos true (body_text lines))
  = map (fun l => (name l, type_token l)) lines.
Proof.
  revert fuel pos. induction lines as [|l lines IH]; intros fuel pos Hok Hfuel.
  - by destruct fuel.
  - apply Forall_cons in Hok as [Hl Hok]. cbn [body_text fold_right] in *.
    fold (body_text lines) in *.
    pose proof (match_column_line l (body_text lines) Hl) as Hm.
    pose proof (match_column_shorter _ _ _ _ Hm) as Hshort.
    destruct fuel as [|fuel]; [lia|].
    rewrite (finditer_from_match _ _ _ _ _ _ Hm). cbn [map]. f_equal.
    rewrite (finditer_from_fuel fuel
               (String.length (trailer l) + 1
                + String.length (body_text lines))).
    + apply line_ok_spec in Hl as (_ & _ & _ & _ & _ & _ & _ & Htr & _).
      rewrite (finditer_from_trailer _ _ _ _ Htr). by apply IH.
    + lia.
    + rewrite !length_append. simpl. lia.
Qed.

Lemma declarations_lines lines :
  Forall (fun l => line_ok l = true) lines ->
  declarations (body_text lines)
  = map (fun l => (name l, upper (type_token l))) lines.
Proof.
  intros Hok. unfold declarations, finditer.
  pose proof (finditer_lines lines (String.length (body_text lines)) 0 Hok
                (le_n _)) as H.
  revert H. generalize (finditer_from (String.length (body_text lines)) 0
                          true (body_text lines)).
  induction Hok as [|l lines Hl Hok IH]; intros ms H.
  - by destruct ms.
  - destruct ms as [|m ms]; [done|]. cbn [map] in *.
    injection H as H1 H2 H3. rewrite (IH ms H3). f_equal.
    apply line_ok_spec in Hl as (_ & _ & Hn & _ & _ & _ & Ht & _).
    unfold declaration. rewrite H1, H2.
    by rewrite (strip_word _ Hn), (split_space_head_type _ Ht).
Qed.

Lemma body_text_no_semicolon lines :
  Forall (fun l => line_ok l = true) lines ->
  all no_semicolon (body_text lines) = true.
Proof.
  induction 1 as [|l lines Hl Hok IH]; [done|].
  cbn [body_text fold_right]. fold (body_text lines).
  apply line_ok_spec in Hl as (Hi & _ & Hn & _ & Hg & _ & Ht & Htr & _).
  unfold line_text. rewrite !all_app, IH, !andb_true_iff.
  repeat split.
  - revert Hi. apply all_impl. intros c Hc.
    by rewrite (space_not_semicolon c Hc).
  - revert Hn. apply all_impl. intros c Hc.
    by rewrite (type_char_not_semicolon c (word_is_type_char c Hc)).
  - revert Hg. apply all_impl. intros c Hc.
    by rewrite (space_not_semicolon c Hc).
  - revert Ht. apply all_impl. intros c Hc.
    by rewrite (type_char_not_semicolon c Hc).
  - revert Htr. apply all_impl. intros c Hc.
    by apply andb_true_iff in Hc as [_ Hc].
Qed.

Lemma search_table_create_table table lines :
  identifier table = true ->
  Forall (fun l => line_ok l = true) lines ->
  search_table (create_table table lines)
  = Some (TableMatch table (body_text lines)).
Proof.
  intros Htable Hok. unfold identifier in Htable.
  apply andb_true_iff in Htable as [Ht0 Ht]. apply negb_true_iff in Ht0.
  assert (Hm : match_table (create_table table lines)
               = Some (TableMatch table (body_text lines))).
  { unfold create_table, match_table.
    change (strip_prefix eqb_nocase "CREATE TABLE "
              ("CREATE TABLE " +:+ table +:+ " (" +:+ body_text lines +:+ ");"))
      with (Some (table +:+ " (" +:+ body_text lines +:+ ");")).
    cbv beta iota.
    rewrite (span_app is_word table); [|done|done].
    rewrite Ht0.
    change (span is_space (" (" +:+ body_text lines +:+ ");"))
      with (" ", "(" +:+ body_text lines +:+ ");").
    change ("(" +:+ body_text lines +:+ ");")
      with (String "(" (body_text lines +:+ ");" +:+ "")).
    cbn [Ascii.eqb Bool.eqb].
    by rewrite (lazy_until_close _ _ (body_text_no_semicolon lines Hok)). }
  revert Hm. generalize (create_table table lines). intros s Hm.
  destruct s; cbn [search_table]; by rewrite Hm.
Qed.

(** C5, as amended.  In a schema file whose body has one column
    definition at the start of each line (white space, a name, white
    space and a type token, then the rest of the line), with distinct
    names, [parse_sql_schema] records one entry for each line: the name
    and the upper-cased type token that start it.  What follows on the
    line, further comma-separated definitions included, is not
    recorded. *)
Theorem one_definition_per_line_recorded table lines :
  identifier table = true ->
  Forall (fun l => line_ok l = true) lines ->
  NoDup (map name lines) ->
  parse_sql_schema (create_table table lines)
  = Ok (map (fun l => (name l, upper (type_token l))) lines).
Proof.
  intros Htable Hok Hnd. unfold parse_sql_schema.
  rewrite (search_table_create_table table lines Htable Hok).
  cbn [columns_block]. rewrite fold_add_column.
  fold (declarations (body_text lines)).
  rewrite (declarations_lines lines Hok).
  rewrite fold_assign_fresh.
  - done.
  - by rewrite map_map.
  - intros k _. apply not_elem_of_nil.
Qed.


(** C4, as amended.  Whenever the text has a CREATE TABLE statement,
    parsing succeeds, whether or not a column name is declared more
    than once: each declared name is a key of the schema once, at the
    position of its first declaration among the names, and its type is
    the one of its last declaration.  For a body with one definition at
    the start of each line these are the names and the types that start
    the lines. *)
Theorem duplicate_column_overwrites sql m :
  search_table sql = Some m ->
  exists schema,
    parse_sql_schema sql = Ok schema /\
    NoDup (od_keys schema) /\
    od_keys schema
    = first_occurrences (map fst (declarations (columns_block m))) /\
    (forall col,
       od_get col schema = od_get col (rev (declarations (columns_block m)))) /\
    (forall lines,
       Forall (fun l => line_ok l = true) lines ->
       columns_block m = body_text lines ->
       od_keys schema = first_occurrences (map name lines) /\
       forall col,
         od_get col schema
         = od_get col
             (rev (map (fun l => (name l, upper (type_token l))) lines))).
Proof.
  intros Hm. unfold parse_sql_schema. rewrite Hm.
  eexists. split; [done|]. rewrite fold_add_column.
  fold (declarations (columns_block m)).
  destruct (fold_assign_schema (declarations (columns_block m)))
    as (Hnd & Hkeys & Hget & _).
  split; [exact Hnd|]. split; [exact Hkeys|]. split; [exact Hget|].
  intros lines Hok Hbody. rewrite Hkeys. split.
  - by rewrite Hbody, (declarations_lines lines Hok), map_map.
  - intros col. by rewrite Hget, Hbody, (declarations_lines lines Hok).
Qed.


End LineFacts.

(* ================================================================== *)
(** ** Columns of a frame *)

Section FrameFacts.

Implicit Types (d : DataFrame) (l : string) (s : series)
  (cs : list (string * series)).

Lemma lookup_map {A B} (f : A -> B) (xs : list A) (i : nat) :
  map f xs !! i = f <$> xs !! i.
Proof. exact (list_lookup_fmap f xs i). Qed.

Lemma assoc_None l cs : assoc l cs = None <-> l ∉ map fst cs.
Proof.
  induction cs as [|[l' s'] cs IH]; simpl.
  - split; [intros _; apply not_elem_of_nil | done].
  - destruct (String.eqb_spec l l') as [->|Hne].
    + split; [done | intros H; exfalso; apply H; left].
    + rewrite IH, not_elem_of_cons. tauto.
Qed.

Lemma assoc_is_Some l cs : is_Some (assoc l cs) <-> l ∈ map fst cs.
Proof.
  rewrite <- not_eq_None_Some, assoc_None.
  split; [apply dec_stable | auto].
Qed.

Lemma column_None d l : column d l = None <-> l ∉ labels d.
Proof. apply assoc_None. Qed.

Lemma column_is_Some d l : is_Some (column d l) <-> l ∈ labels d.
Proof. apply assoc_is_Some. Qed.

Lemma set_assoc_labels l s cs :
  l ∈ map fst cs -> map fst (set_assoc l s cs) = map fst cs.
Proof.
  induction cs as [|[l' s'] cs IH]; simpl; intros Hin.
  - by apply elem_of_nil in Hin.
  - destruct (String.eqb_spec l l') as [->|Hne]; simpl; [done|].
    f_equal. apply IH. apply elem_of_cons in Hin. by destruct Hin.
Qed.

Lemma assoc_set_assoc l l' s cs :
  assoc l' (set_assoc l s cs) = if String.eqb l' l then Some s else assoc l' cs.
Proof.
  induction cs as [|[l0 s0] cs IH]; simpl.
  - by destruct (String.eqb_spec l' l).
  - destruct (String.eqb_spec l l0) as [->|Hne]; simpl.
    + by destruct (String.eqb_spec l' l0).
    + rewrite IH. destruct (String.eqb_spec l' l0) as [->|Hne'];
        [|done].
      destruct (String.eqb_spec l0 l); congruence.
Qed.

Lemma set_assoc_same l s cs : assoc l cs = Some s -> set_assoc l s cs = cs.
Proof.
  induction cs as [|[l' s'] cs IH]; simpl; [done|].
  destruct (String.eqb_spec l l') as [->|Hne]; [congruence|].
  intros H. by rewrite IH.
Qed.

Lemma assoc_map (f : series -> series) l cs :
  assoc l (map (fun c => (fst c, f (snd c))) cs) = f <$> assoc l cs.
Proof.
  induction cs as [|[l' s'] cs IH]; simpl; [done|].
  by destruct (String.eqb l l').
Qed.

Lemma column_map_cells f d l :
  column (map_cells f d) l = map f <$> column d l.
Proof. apply (assoc_map (map f)). Qed.

Lemma labels_map_cells f d : labels (map_cells f d) = labels d.
Proof.
  unfold labels, map_cells; simpl. rewrite map_map. by apply map_ext.
Qed.

Lemma column_map_columns (f : series -> series) d l :
  column (map_columns f d) l = f <$> column d l.
Proof. apply (assoc_map f). Qed.

Lemma labels_map_columns (f : series -> series) d :
  labels (map_columns f d) = labels d.
Proof.
  unfold labels, map_columns; simpl. rewrite map_map. by apply map_ext.
Qed.

Lemma column_set_column l l' s d :
  column (set_column l s d) l' = if String.eqb l' l then Some s else column d l'.
Proof. apply assoc_set_assoc. Qed.

Lemma labels_set_column l s d :
  l ∈ labels d -> labels (set_column l s d) = labels d.
Proof. apply set_assoc_labels. Qed.

Lemma set_column_same l s d : column d l = Some s -> set_column l s d = d.
Proof.
  intros H. destruct d as [n cs]. unfold set_column; simpl.
  f_equal. by apply set_assoc_same.
Qed.

(** *** [d[ls]] *)

Lemma take_columns_Ok d ls :
  ls ⊆ labels d ->
  exists sel, take_columns d ls = Ok sel /\ nrows sel = nrows d /\
    labels sel = ls /\
    (forall l, l ∈ ls -> column sel l = column d l).
Proof.
  intros Hsub. unfold take_columns.
  assert (Hf : filter (fun l => column d l = None) ls = []).
  { clear -Hsub. induction ls as [|l ls IH]; [done|].
    rewrite filter_cons. destruct (decide (column d l = None)) as [Hn|_].
    - apply column_None in Hn. exfalso. apply Hn, Hsub. left.
    - apply IH. intros x Hx. apply Hsub. by right. }
  rewrite Hf. eexists. split; [done|]. split; [done|].
  unfold labels, column; simpl. clear Hf.
  induction ls as [|l0 ls IH]; simpl.
  - split; [done|]. intros l Hl. by apply elem_of_nil in Hl.
  - assert (Hsub' : ls ⊆ map fst (columns d)).
    { intros x Hx. apply Hsub. by right. }
    destruct (IH Hsub') as [IH1 IH2].
    destruct (assoc l0 (columns d)) as [s0|] eqn:E.
    + simpl. split; [by f_equal|]. intros l Hl.
      destruct (String.eqb_spec l l0) as [->|Hne]; [done|].
      apply IH2. apply elem_of_cons in Hl. by destruct Hl.
    + apply assoc_None in E. exfalso. apply E, Hsub. left.
Qed.

Lemma take_columns_Raise d ls l :
  l ∈ ls -> l ∉ labels d ->
  exists missing, take_columns d ls = Raise (KeyError missing) /\ l ∈ missing.
Proof.
  intros Hl Hn. unfold take_columns.
  assert (Hin : l ∈ filter (fun l => column d l = None) ls).
  { apply list_elem_of_filter. split; [by apply column_None | done]. }
  destruct (filter _ ls) as [|x xs] eqn:E.
  - by apply elem_of_nil in Hin.
  - eexists. split; [done|]. done.
Qed.

Lemma take_columns_inv d ls sel :
  take_columns d ls = Ok sel -> ls ⊆ labels d.
Proof.
  unfold take_columns. intros H l Hl.
  destruct (decide (l ∈ labels d)) as [|Hn]; [done|].
  assert (Hin : l ∈ filter (fun l => column d l = None) ls).
  { apply list_elem_of_filter. split; [by apply column_None | done]. }
  destruct (filter _ ls); [by apply elem_of_nil in Hin | done].
Qed.

End FrameFacts.

(* ================================================================== *)
(** ** One run of [clean_data] *)

Section CleaningFacts.

Variable numeric_cell : series -> value -> value.
Variable datetime_cell : series -> value -> value.
Variable str_float : float -> string.
Variable str_timestamp : Z -> string.
Variable str_missing : value -> value.
Variable keeps_null : series -> bool.

Local Abbreviation clean_data' :=
  (clean_data numeric_cell datetime_cell str_float str_timestamp str_missing
     keeps_null).
Local Abbreviation convert_column' :=
  (convert_column numeric_cell datetime_cell str_float str_timestamp
     str_missing).
Local Abbreviation convert_series' :=
  (convert_series numeric_cell datetime_cell str_float str_timestamp
     str_missing).
Local Abbreviation convert_frame' :=
  (convert_frame numeric_cell datetime_cell str_float str_timestamp
     str_missing).
Local Abbreviation cleaned' :=
  (cleaned numeric_cell datetime_cell str_float str_timestamp str_missing
     keeps_null).
Local Abbreviation convert_cell' :=
  (convert_cell numeric_cell datetime_cell str_float str_timestamp
     str_missing).
Local Abbreviation astype_str' :=
  (astype_str str_float str_timestamp str_missing).
Local Abbreviation where_series' := (where_notnull_series keeps_null PyNone).
Local Abbreviation sentinels := (replace_cell ["Not Provided"; ""] PyNone).

Implicit Types (h : store) (r : ref) (d sel : DataFrame)
  (schema : ordered_dict).

Lemma convert_frame_labels d item :
  labels (convert_frame' d item) = labels d.
Proof.
  unfold convert_frame. destruct (column d item.1) eqn:E; [|done].
  apply labels_set_column, column_is_Some. by rewrite E.
Qed.

Lemma convert_frame_nrows d item :
  nrows (convert_frame' d item) = nrows d.
Proof. unfold convert_frame. by destruct (column d item.1). Qed.

Lemma fold_convert_labels schema d :
  labels (fold_left convert_frame' schema d) = labels d.
Proof.
  revert d. induction schema as [|item schema IH]; intros d; simpl; [done|].
  by rewrite IH, convert_frame_labels.
Qed.

Lemma fold_convert_nrows schema d :
  nrows (fold_left convert_frame' schema d) = nrows d.
Proof.
  revert d. induction schema as [|item schema IH]; intros d; simpl; [done|].
  by rewrite IH, convert_frame_nrows.
Qed.

(** One turn of the loop changes the object [r] as [convert_frame]
    says. *)
Lemma convert_column_run h r d col dtype :
  h !! r = Some d -> col ∈ labels d ->
  convert_column' r col dtype h
  = (Ok tt, <[r := convert_frame' d (col, dtype)]> h).
Proof.
  intros Hr Hcol. apply column_is_Some in Hcol as [s Hs].
  unfold convert_column, convert_frame, convert_series; simpl. rewrite Hs.
  repeat case_match;
    try (unfold getitem, setitem, bind, load, modify, ret;
         rewrite Hr; simpl; rewrite Hs; by rewrite Hr).
  unfold ret. by rewrite (set_column_same _ _ _ Hs), insert_id.
Qed.

Lemma for_each_run schema h r d :
  h !! r = Some d -> od_keys schema ⊆ labels d ->
  for_each schema (fun item => convert_column' r item.1 item.2) h
  = (Ok tt, <[r := fold_left convert_frame' schema d]> h).
Proof.
  revert h d. induction schema as [|[col dtype] schema IH];
    intros h d Hr Hsub; simpl.
  - unfold ret. by rewrite insert_id.
  - unfold bind. rewrite (convert_column_run h r d) by
      (done || apply Hsub; left).
    rewrite (IH _ (convert_frame' d (col, dtype))).
    + by rewrite insert_insert_eq.
    + apply lookup_insert_eq.
    + rewrite convert_frame_labels. intros x Hx. apply Hsub. by right.
Qed.

Lemma take_columns_shape d ls sel :
  take_columns d ls = Ok sel -> nrows sel = nrows d /\ labels sel = ls.
Proof.
  intros H.
  destruct (take_columns_Ok d ls (take_columns_inv _ _ _ H))
    as (sel' & H' & Hn & Hl & _).
  rewrite H in H'. by simplify_eq.
Qed.

(** The three objects that a successful call allocates: the selection,
    its copy (which the call then changes in place) and the result. *)
Lemma clean_data_run h r d schema sel :
  h !! r = Some d -> take_columns d (od_keys schema) = Ok sel ->
  let r1 := fresh (dom h) in
  let h1 := <[r1 := sel]> h in
  let r2 := fresh (dom h1) in
  let h2 := <[r2 := fold_left convert_frame' schema (map_cells sentinels sel)]> h1 in
  let r3 := fresh (dom h2) in
  clean_data' r schema h = (Ok r3, <[r3 := cleaned' schema sel]> h2).
Proof.
  intros Hr Hsel r1 h1 r2 h2 r3.
  destruct (take_columns_shape _ _ _ Hsel) as [_ Hlabels].
  unfold clean_data, bind, getitem_labels, copy, replace_inplace,
    where_notnull, load, new, modify, bind.
  subst r1 h1 r2 h2 r3.
  rewrite Hr, Hsel. simpl.
  rewrite lookup_insert_eq. simpl.
  rewrite lookup_insert_eq.
  rewrite (for_each_run schema _ _ (map_cells sentinels sel)).
  - rewrite !insert_insert_eq, lookup_insert_eq. done.
  - apply lookup_insert_eq.
  - by rewrite labels_map_cells, Hlabels.
Qed.

(** A missing label: the call raises before it allocates anything. *)
Lemma clean_data_raise h r d schema e :
  h !! r = Some d -> take_columns d (od_keys schema) = Raise e ->
  clean_data' r schema h = (Raise e, h).
Proof.
  intros Hr Hsel.
  unfold clean_data, getitem_labels, bind, load, raise.
  by rewrite Hr, Hsel.
Qed.

(** *** The cells of the result *)

Lemma convert_series_classify dtype s :
  convert_series' dtype s =
  match classify dtype with
  | INTEGER | FLOATING => to_numeric numeric_cell s
  | BOOLEAN => astype_bool s
  | DATE => to_datetime datetime_cell s
  | TEXT => astype_str' s
  | PASSTHROUGH => s
  end.
Proof. unfold convert_series, classify. by repeat case_match. Qed.

(** Every conversion works cell by cell. *)
Lemma convert_series_cells dtype s :
  convert_series' dtype s = map (convert_cell' dtype s) s.
Proof.
  rewrite convert_series_classify. unfold convert_cell.
  destruct (classify dtype); try reflexivity.
  by rewrite map_id.
Qed.

Lemma convert_series_map dtype s :
  exists f, convert_series' dtype s = map f s.
Proof. eexists. apply convert_series_cells. Qed.

Lemma where_series_map s : exists f, where_series' s = map f s.
Proof.
  unfold where_notnull_series. destruct (keeps_null s).
  - exists id. by rewrite map_id.
  - by eexists.
Qed.

(** Under [where] a cell that is not null is kept, and a null cell stays
    null. *)
Lemma where_series_lookup s i x :
  s !! i = Some x ->
  exists x', where_series' s !! i = Some x' /\
    (isnull x = false -> x' = x) /\
    (isnull x = true -> isnull x' = true).
Proof.
  intros Hx. unfold where_notnull_series. destruct (keeps_null s).
  - exists x. by split.
  - rewrite lookup_map, Hx. simpl. eexists. split; [done|].
    unfold where_notnull_cell, notnull. by destruct (isnull x).
Qed.

Lemma od_get_None k schema : od_get k schema = None <-> k ∉ od_keys schema.
Proof.
  induction schema as [|[k' v'] schema IH]; simpl.
  - split; [intros _; apply not_elem_of_nil | done].
  - destruct (String.eqb_spec k k') as [->|Hne].
    + split; [done | intros H; exfalso; apply H; left].
    + rewrite IH, not_elem_of_cons. tauto.
Qed.

Lemma od_get_Some_keys k v schema :
  od_get k schema = Some v -> k ∈ od_keys schema.
Proof.
  intros H. destruct (decide (k ∈ od_keys schema)) as [|Hn]; [done|].
  apply od_get_None in Hn. congruence.
Qed.

Lemma column_convert_frame d item c :
  column (convert_frame' d item) c =
  if String.eqb c item.1 then convert_series' item.2 <$> column d c
  else column d c.
Proof.
  unfold convert_frame.
  destruct (String.eqb_spec c item.1) as [->|Hne].
  - destruct (column d item.1) eqn:E; [|by rewrite E].
    rewrite column_set_column. by rewrite String.eqb_refl.
  - destruct (column d item.1) eqn:E; [|done].
    rewrite column_set_column. by destruct (String.eqb_spec c item.1).
Qed.

(** With unique keys every column is converted once, by its own type. *)
Lemma fold_convert_column schema d c :
  NoDup (od_keys schema) ->
  column (fold_left convert_frame' schema d) c =
  match od_get c schema with
  | Some dtype => convert_series' dtype <$> column d c
  | None => column d c
  end.
Proof.
  revert d. induction schema as [|[col dtype] schema IH]; intros d Hnd;
    [done|].
  apply NoDup_cons in Hnd as [Hnotin Hnd]. simpl.
  rewrite IH by done. rewrite column_convert_frame; simpl.
  apply od_get_None in Hnotin. simpl in Hnotin.
  destruct (String.eqb_spec c col) as [->|Hne]; [|done].
  by rewrite Hnotin.
Qed.

(** In any case every column of the result is a cell-wise image of the
    column it comes from. *)
Lemma fold_convert_column_map schema d c :
  exists f, column (fold_left convert_frame' schema d) c = map f <$> column d c.
Proof.
  revert d. induction schema as [|item schema IH]; intros d; simpl.
  - exists id. destruct (column d c); simpl; [by rewrite map_id | done].
  - destruct (IH (convert_frame' d item)) as [f Hf]. rewrite Hf.
    rewrite column_convert_frame.
    destruct (String.eqb c item.1); [|by exists f].
    destruct (column d c) as [s|]; simpl; [|by exists f].
    destruct (convert_series_map item.2 s) as [g ->].
    exists (f ∘ g). by rewrite map_map.
Qed.

Lemma cleaned_column schema d sel c dtype :
  NoDup (od_keys schema) ->
  take_columns d (od_keys schema) = Ok sel ->
  od_get c schema = Some dtype ->
  column (cleaned' schema sel) c =
  (fun s => where_series' (convert_series' dtype (map sentinels s)))
    <$> column d c.
Proof.
  intros Hnd Hsel Hget. unfold cleaned.
  rewrite column_map_columns, fold_convert_column, Hget by done.
  rewrite column_map_cells.
  destruct (take_columns_Ok d (od_keys schema) (take_columns_inv _ _ _ Hsel))
    as (sel' & Hsel' & _ & _ & Hcol).
  rewrite Hsel in Hsel'. simplify_eq.
  rewrite (Hcol c (od_get_Some_keys _ _ _ Hget)).
  by destruct (column d c).
Qed.

(** A successful run, and one cell of its result: the converted cell if
    it is not null, and a null cell otherwise. *)
Lemma clean_data_cell h r d schema c dtype i v :
  h !! r = Some d ->
  NoDup (od_keys schema) ->
  od_keys schema ⊆ labels d ->
  od_get c schema = Some dtype ->
  cell d c i = Some v ->
  exists out_ref h' out s x',
    clean_data' r schema h = (Ok out_ref, h') /\
    h' !! out_ref = Some out /\
    s !! i = Some v /\
    cell out c i = Some x' /\
    (isnull (convert_cell' dtype (map sentinels s) (sentinels v)) = false ->
     x' = convert_cell' dtype (map sentinels s) (sentinels v)) /\
    (isnull (convert_cell' dtype (map sentinels s) (sentinels v)) = true ->
     isnull x' = true).
Proof.
  intros Hr Hnd Hsub Hget Hcell.
  destruct (take_columns_Ok d _ Hsub) as (sel & Hsel & _).
  pose proof (clean_data_run h r d schema sel Hr Hsel) as Hrun.
  simpl in Hrun.
  pose proof (cleaned_column schema d sel c dtype Hnd Hsel Hget) as Hcol.
  unfold cell in Hcell. destruct (column d c) as [s|] eqn:Hs; [|done].
  simpl in Hcol.
  assert (Hx : convert_series' dtype (map sentinels s) !! i
               = Some (convert_cell' dtype (map sentinels s) (sentinels v))).
  { by rewrite convert_series_cells, !lookup_map, Hcell. }
  destruct (where_series_lookup _ _ _ Hx) as (x' & Hx' & Hkeep & Hnull).
  do 3 eexists. exists s, x'. split; [exact Hrun|].
  split; [apply lookup_insert_eq|]. split; [done|]. split; [|by split].
  unfold cell. by rewrite Hcol.
Qed.

Lemma boolean_cell h r d schema c dtype i v :
  h !! r = Some d ->
  NoDup (od_keys schema) ->
  od_keys schema ⊆ labels d ->
  od_get c schema = Some dtype ->
  classify dtype = BOOLEAN ->
  cell d c i = Some v ->
  exists out_ref h' out,
    clean_data' r schema h = (Ok out_ref, h') /\
    h' !! out_ref = Some out /\
    cell out c i = Some (PyBool (truthy (sentinels v))).
Proof.
  intros Hr Hnd Hsub Hget Hclass Hcell.
  destruct (clean_data_cell h r d schema c dtype i v Hr Hnd Hsub Hget Hcell)
    as (out_ref & h' & out & s & x' & Hrun & Hout & Hi & Hc & Hkeep & _).
  unfold convert_cell in Hkeep. rewrite Hclass in Hkeep.
  rewrite (Hkeep eq_refl) in Hc. by exists out_ref, h', out.
Qed.

(** *** The claims about [clean_data] *)

Lemma truthy_false_iff w :
  truthy w = false <-> w = PyNone \/ w = PyStr "" \/ is_zero w = true.
Proof.
  destruct w as [|s|z|f|b| |]; simpl.
  - split; [by left | done].
  - destruct s; simpl.
    + split; [by right; left | done].
    + split; [done | by intros [?|[?|?]]].
  - rewrite negb_false_iff. split; [by right; right | by intros [?|[?|?]]].
  - rewrite negb_false_iff. split; [by right; right | by intros [?|[?|?]]].
  - rewrite negb_true_iff. split; [by right; right | by intros [?|[?|?]]].
  - split; [done | by intros [?|[?|?]]].
  - split; [done | by intros [?|[?|?]]].
Qed.

Lemma sentinels_sentinel s :
  s = "" \/ s = "Not Provided" -> sentinels (PyStr s) = PyNone.
Proof. by intros [->| ->]. Qed.

Lemma sentinels_is_sentinel v :
  sentinels v = if is_sentinel v then PyNone else v.
Proof. reflexivity. Qed.

(** The truth value of a cell after the replacement of the sentinels, in
    terms of the raw cell. *)
Lemma truthy_sentinels_false_iff v :
  truthy (sentinels v) = false <->
  v = PyNone \/ v = PyStr "" \/ v = PyStr "Not Provided" \/ is_zero v = true.
Proof.
  destruct (is_sentinel v) eqn:Hs.
  - rewrite sentinels_is_sentinel, Hs. split; [intros _ | done].
    unfold is_sentinel in Hs.
    destruct v as [|s|z|f|b| |]; simpl in Hs; try discriminate Hs.
    destruct (String.eqb_spec s "Not Provided") as [E|_];
      [subst s; by right; right; left|].
    destruct (String.eqb_spec s "") as [E|_];
      [subst s; by right; left | discriminate Hs].
  - rewrite sentinels_is_sentinel, Hs, truthy_false_iff.
    split; [tauto|]. intros [H|[H|[H|H]]]; try tauto.
    subst v. discriminate Hs.
Qed.

(** A cell of a TEXT column: [str] of a cell that is not null after the
    replacement of the sentinels; for a null cell, what [astype(str)]
    makes of it if that is not null, and a null cell otherwise. *)
Lemma text_cell h r d schema c dtype i v :
  h !! r = Some d ->
  NoDup (od_keys schema) ->
  od_keys schema ⊆ labels d ->
  od_get c schema = Some dtype ->
  classify dtype = TEXT ->
  cell d c i = Some v ->
  exists out_ref h' out v',
    clean_data' r schema h = (Ok out_ref, h') /\
    h' !! out_ref = Some out /\
    cell out c i = Some v' /\
    (is_sentinel v || isnull v = false ->
     v' = PyStr (py_str str_float str_timestamp v)) /\
    (is_sentinel v || isnull v = true ->
     (isnull (str_missing (sentinels v)) = false ->
      v' = str_missing (sentinels v)) /\
     (isnull (str_missing (sentinels v)) = true -> isnull v' = true)).
Proof.
  intros Hr Hnd Hsub Hget Hclass Hcell.
  destruct (clean_data_cell h r d schema c dtype i v Hr Hnd Hsub Hget Hcell)
    as (out_ref & h' & out & s & x' & Hrun & Hout & Hi & Hc & Hkeep & Hnull).
  unfold convert_cell in Hkeep, Hnull. rewrite Hclass in Hkeep, Hnull.
  exists out_ref, h', out, x'.
  split; [exact Hrun|]. split; [exact Hout|]. split; [exact Hc|].
  rewrite sentinels_is_sentinel in *.
  destruct (is_sentinel v); simpl in *.
  - split; [done|]. intros _. by split.
  - destruct (isnull v); [split; [done | by intros _] |].
    split; [intros _; by apply Hkeep | done].
Qed.

(** C1, as amended.  A cell whose raw value is the empty string or
    ["Not Provided"] is [False] in the result when its column is declared
    BOOLEAN, and null when the declared type is any other than BOOLEAN
    and TEXT. *)
Theorem sentinel_cells_null_or_false h r d schema c dtype i s :
  h !! r = Some d ->
  NoDup (od_keys schema) ->
  od_keys schema ⊆ labels d ->
  od_get c schema = Some dtype ->
  cell d c i = Some (PyStr s) ->
  s = "" \/ s = "Not Provided" ->
  exists out_ref h' out v,
    clean_data' r schema h = (Ok out_ref, h') /\
    h' !! out_ref = Some out /\
    cell out c i = Some v /\
    (classify dtype = BOOLEAN -> v = PyBool false) /\
    (classify dtype <> BOOLEAN -> classify dtype <> TEXT -> isnull v = true).
Proof.
  intros Hr Hnd Hsub Hget Hcell Hs.
  destruct (clean_data_cell h r d schema c dtype i _ Hr Hnd Hsub Hget Hcell)
    as (out_ref & h' & out & col & x' & Hrun & Hout & Hi & Hc & Hkeep & Hnull).
  rewrite (sentinels_sentinel s Hs) in Hkeep, Hnull.
  unfold convert_cell in Hkeep, Hnull.
  exists out_ref, h', out, x'.
  split; [exact Hrun|]. split; [exact Hout|]. split; [exact Hc|]. split.
  - intros Hb. rewrite Hb in Hkeep. by apply Hkeep.
  - intros Hb Ht. apply Hnull. by destruct (classify dtype).
Qed.

(** C3, as amended.  The cell of a BOOLEAN column is the truth value that
    Python gives to the cell after the replacement of the sentinels.  It
    is [False] exactly when the raw cell is [None], the empty string,
    ["Not Provided"] or a value equal to [0]; it is [True] for every
    other cell, the string ["false"], the float NaN and NaT among
    them. *)
Theorem boolean_column_truthiness h r d schema c dtype i v :
  h !! r = Some d ->
  NoDup (od_keys schema) ->
  od_keys schema ⊆ labels d ->
  od_get c schema = Some dtype ->
  classify dtype = BOOLEAN ->
  cell d c i = Some v ->
  exists out_ref h' out b,
    clean_data' r schema h = (Ok out_ref, h') /\
    h' !! out_ref = Some out /\
    cell out c i = Some (PyBool b) /\
    (b = false <->
     v = PyNone \/ v = PyStr "" \/ v = PyStr "Not Provided" \/
     is_zero v = true) /\
    (v = PyStr "false" -> b = true) /\
    (v = NaN -> b = true) /\
    (v = NaT -> b = true).
Proof.
  intros Hr Hnd Hsub Hget Hclass Hcell.
  destruct (boolean_cell h r d schema c dtype i v Hr Hnd Hsub Hget Hclass Hcell)
    as (out_ref & h' & out & Hrun & Hout & Hc).
  exists out_ref, h', out, (truthy (sentinels v)).
  split; [exact Hrun|]. split; [exact Hout|]. split; [exact Hc|].
  split; [apply truthy_sentinels_false_iff|].
  split; [|split]; by intros ->.
Qed.

(** Where [astype(str)] makes the string [str(v)] of a null cell [v], as
    it did before pandas 3, a sentinel in a TEXT column comes out as the
    string ["None"]. *)
Lemma text_cell_stringified h r d schema c dtype i v :
  (forall w, isnull w = true ->
             str_missing w = PyStr (py_str str_float str_timestamp w)) ->
  h !! r = Some d ->
  NoDup (od_keys schema) ->
  od_keys schema ⊆ labels d ->
  od_get c schema = Some dtype ->
  classify dtype = TEXT ->
  cell d c i = Some v ->
  is_sentinel v = true ->
  exists out_ref h' out,
    clean_data' r schema h = (Ok out_ref, h') /\
    h' !! out_ref = Some out /\
    cell out c i = Some (PyStr "None").
Proof.
  intros Hstr Hr Hnd Hsub Hget Hclass Hcell Hs.
  destruct (text_cell h r d schema c dtype i v Hr Hnd Hsub Hget Hclass Hcell)
    as (out_ref & h' & out & v' & Hrun & Hout & Hc & _ & Hnull).
  rewrite Hs, sentinels_is_sentinel, Hs in Hnull.
  destruct (Hnull eq_refl) as [Hv' _].
  rewrite (Hstr PyNone eq_refl) in Hv'. rewrite (Hv' eq_refl) in Hc.
  by exists out_ref, h', out.
Qed.


(** C8.  When every schema column is a label of the input, [clean_data]
    returns a frame with the row count of the input, and each of its
    columns is the cell-by-cell image of the input column of the same
    label: no row is dropped, added or moved. *)
Theorem clean_data_preserves_rows h r d schema :
  h !! r = Some d ->
  wf_frame d ->
  od_keys schema ⊆ labels d ->
  exists out_ref h' out,
    clean_data' r schema h = (Ok out_ref, h') /\
    h' !! out_ref = Some out /\
    nrows out = nrows d /\
    forall c s', column out c = Some s' ->
      length s' = nrows d /\
      exists s f, column d c = Some s /\ s' = map f s.
Proof.
  intros Hr [_ Hlen] Hsub.
  destruct (take_columns_Ok d _ Hsub) as (sel & Hsel & Hn & Hlab & Hcol).
  pose proof (clean_data_run h r d schema sel Hr Hsel) as Hrun.
  simpl in Hrun.
  do 3 eexists. split; [exact Hrun|]. split; [apply lookup_insert_eq|].
  split.
  { unfold cleaned; simpl. by rewrite fold_convert_nrows. }
  intros c s' Hc. unfold cleaned in Hc.
  rewrite column_map_columns in Hc.
  destruct (fold_convert_column_map schema (map_cells sentinels sel) c)
    as [f Hf].
  rewrite Hf, column_map_cells in Hc.
  destruct (column sel c) as [s|] eqn:Hs; [|done].
  assert (Hin : c ∈ od_keys schema).
  { rewrite <- Hlab. apply column_is_Some. by rewrite Hs. }
  rewrite (Hcol c Hin) in Hs. simpl in Hc.
  destruct (where_series_map (map f (map sentinels s))) as [g Hg].
  rewrite Hg in Hc. simplify_eq.
  assert (Hls : length s = nrows d).
  { unfold column in Hs. clear -Hs Hlen.
    induction (columns d) as [|[l0 s0] cs IH]; [done|].
    apply Forall_cons in Hlen as [H0 Hlen]. simpl in Hs.
    destruct (String.eqb c l0); [by simplify_eq | by apply IH]. }
  split; [by rewrite !length_map|].
  exists s, (g ∘ f ∘ sentinels).
  split; [done|]. by rewrite !map_map.
Qed.

(** C9.  [clean_data] raises the [KeyError] of a missing column, and
    leaves the store as it was, exactly when a schema column is not a
    label of the input; it succeeds exactly when every schema column is
    a label, whatever other labels the input has; and the labels of the
    result are the schema columns, in schema order. *)
Theorem clean_data_missing_column h r d schema :
  h !! r = Some d ->
  ((exists c, c ∈ od_keys schema /\ c ∉ labels d) <->
   (exists missing, clean_data' r schema h = (Raise (KeyError missing), h))) /\
  (od_keys schema ⊆ labels d <->
   (exists out_ref h', clean_data' r schema h = (Ok out_ref, h'))) /\
  (forall out_ref h',
     clean_data' r schema h = (Ok out_ref, h') ->
     exists out, h' !! out_ref = Some out /\ labels out = od_keys schema).
Proof.
  intros Hr.
  destruct (take_columns d (od_keys schema)) as [sel|e] eqn:Hsel.
  - pose proof (clean_data_run h r d schema sel Hr Hsel) as Hrun.
    simpl in Hrun.
    pose proof (take_columns_inv _ _ _ Hsel) as Hsub.
    destruct (take_columns_shape _ _ _ Hsel) as [_ Hlab].
    split; [|split].
    + split.
      * intros (c & Hc & Hn). exfalso. by apply Hn, Hsub.
      * intros (missing & Hm). rewrite Hrun in Hm. congruence.
    + split; [eauto | done].
    + intros out_ref h' Hok. rewrite Hrun in Hok. simplify_eq.
      eexists. split; [apply lookup_insert_eq|].
      unfold cleaned.
      by rewrite labels_map_columns, fold_convert_labels, labels_map_cells.
  - pose proof (clean_data_raise h r d schema e Hr Hsel) as Hrun.
    unfold take_columns in Hsel.
    destruct (filter _ (od_keys schema)) as [|x xs] eqn:Hf; [done|].
    simplify_eq.
    assert (Hx : x ∈ od_keys schema /\ x ∉ labels d).
    { assert (Hin : x ∈ filter (fun l => column d l = None) (od_keys schema))
        by (rewrite Hf; left).
      apply list_elem_of_filter in Hin as [Hn Hin].
      split; [done | by apply column_None]. }
    split; [|split].
    + split; [eauto | intros _; exists x; done].
    + split.
      * intros Hsub. exfalso. destruct Hx as [Hx Hn]. by apply Hn, Hsub.
      * intros (out_ref & h' & Hok). rewrite Hrun in Hok. congruence.
    + intros out_ref h' Hok. rewrite Hrun in Hok. congruence.
Qed.

(** C10.  A successful call leaves the input frame as it was, and every
    other object of the store with it; the frame it returns is a new
    object. *)
Theorem clean_data_leaves_input h r d schema out_ref h' :
  h !! r = Some d ->
  clean_data' r schema h = (Ok out_ref, h') ->
  h' !! r = Some d /\ h !! out_ref = None /\ h ⊆ h'.
Proof.
  intros Hr Hok.
  destruct (take_columns d (od_keys schema)) as [sel|e] eqn:Hsel.
  2: { rewrite (clean_data_raise h r d schema e Hr Hsel) in Hok.
       congruence. }
  pose proof (clean_data_run h r d schema sel Hr Hsel) as Hrun.
  simpl in Hrun. rewrite Hrun in Hok. clear Hrun.
  set (h1 := <[fresh (dom h) := sel]> h) in *.
  set (h2 := <[fresh (dom h1) := _]> h1) in *.
  assert (H1 : h !! fresh (dom h) = None)
    by apply not_elem_of_dom, is_fresh.
  assert (H2 : h1 !! fresh (dom h1) = None)
    by apply not_elem_of_dom, is_fresh.
  assert (H3 : h2 !! fresh (dom h2) = None)
    by apply not_elem_of_dom, is_fresh.
  assert (S1 : h ⊆ h1) by apply insert_subseteq, H1.
  assert (S2 : h1 ⊆ h2) by apply insert_subseteq, H2.
  simplify_eq.
  assert (S3 : h2 ⊆ <[fresh (dom h2) := cleaned' schema sel]> h2)
    by apply insert_subseteq, H3.
  assert (Hsub : h ⊆ h2) by (etrans; done).
  split; [|split].
  - apply (lookup_weaken h); [done | etrans; done].
  - destruct (h !! fresh (dom h2)) as [d'|] eqn:E; [|done].
    pose proof (lookup_weaken h h2 _ _ E Hsub) as E'.
    rewrite H3 in E'. done.
  - etrans; done.
Qed.

(** *** Further properties of [clean_data] *)

(** X7.  A column whose declared type is none of the nine keywords
    passes through: a cell is kept as it is, unless it is one of the two
    sentinel strings or null, and then it is null in the result. *)
Theorem passthrough_column_kept h r d schema c dtype i v :
  h !! r = Some d ->
  NoDup (od_keys schema) ->
  od_keys schema ⊆ labels d ->
  od_get c schema = Some dtype ->
  classify dtype = PASSTHROUGH ->
  cell d c i = Some v ->
  exists out_ref h' out v',
    clean_data' r schema h = (Ok out_ref, h') /\
    h' !! out_ref = Some out /\
    cell out c i = Some v' /\
    (is_sentinel v || isnull v = true -> isnull v' = true) /\
    (is_sentinel v || isnull v = false -> v' = v).
Proof.
  intros Hr Hnd Hsub Hget Hclass Hcell.
  destruct (clean_data_cell h r d schema c dtype i v Hr Hnd Hsub Hget Hcell)
    as (out_ref & h' & out & s & x' & Hrun & Hout & Hi & Hc & Hkeep & Hnull).
  unfold convert_cell in Hkeep, Hnull. rewrite Hclass in Hkeep, Hnull.
  rewrite sentinels_is_sentinel in Hkeep, Hnull.
  exists out_ref, h', out, x'.
  split; [exact Hrun|]. split; [exact Hout|]. split; [exact Hc|].
  destruct (is_sentinel v); simpl in *.
  - split; [intros _; by apply Hnull | done].
  - split; [exact Hnull | exact Hkeep].
Qed.

(** X8.  In a TEXT column a cell that is neither null nor one of the two
    sentinel strings comes out as the string [str] of the cell; a string
    is kept as it is. *)
Theorem text_column_strings h r d schema c dtype i v :
  h !! r = Some d ->
  NoDup (od_keys schema) ->
  od_keys schema ⊆ labels d ->
  od_get c schema = Some dtype ->
  classify dtype = TEXT ->
  cell d c i = Some v ->
  is_sentinel v = false ->
  isnull v = false ->
  exists out_ref h' out,
    clean_data' r schema h = (Ok out_ref, h') /\
    h' !! out_ref = Some out /\
    cell out c i = Some (PyStr (py_str str_float str_timestamp v)) /\
    (forall s, v = PyStr s -> cell out c i = Some (PyStr s)).
Proof.
  intros Hr Hnd Hsub Hget Hclass Hcell Hs Hn.
  destruct (text_cell h r d schema c dtype i v Hr Hnd Hsub Hget Hclass Hcell)
    as (out_ref & h' & out & v' & Hrun & Hout & Hc & Hstr & _).
  rewrite Hs, Hn in Hstr. rewrite (Hstr eq_refl) in Hc.
  exists out_ref, h', out. split; [exact Hrun|]. split; [exact Hout|].
  split; [exact Hc|]. by intros s ->.
Qed.

(** X9.  A missing cell stays missing: a cell that is [None] or NaN in a
    column declared with any type other than BOOLEAN and TEXT is null in
    the result. *)
Theorem missing_cells_stay_null h r d schema c dtype i v :
  h !! r = Some d ->
  NoDup (od_keys schema) ->
  od_keys schema ⊆ labels d ->
  od_get c schema = Some dtype ->
  classify dtype <> BOOLEAN ->
  classify dtype <> TEXT ->
  cell d c i = Some v ->
  v = PyNone \/ v = NaN ->
  exists out_ref h' out v',
    clean_data' r schema h = (Ok out_ref, h') /\
    h' !! out_ref = Some out /\
    cell out c i = Some v' /\
    isnull v' = true.
Proof.
  intros Hr Hnd Hsub Hget Hb Ht Hcell Hv.
  destruct (clean_data_cell h r d schema c dtype i v Hr Hnd Hsub Hget Hcell)
    as (out_ref & h' & out & s & x' & Hrun & Hout & Hi & Hc & _ & Hnull).
  exists out_ref, h', out, x'.
  split; [exact Hrun|]. split; [exact Hout|]. split; [exact Hc|].
  apply Hnull. unfold convert_cell.
  destruct (classify dtype); try done; by destruct Hv as [-> | ->].
Qed.

(** X10.  In a BOOLEAN column a NaN cell, which is what a missing value
    of a numeric or mixed column is, comes out as [True]: NaN is a float
    other than zero. *)
Theorem nan_boolean_cell_true h r d schema c dtype i :
  h !! r = Some d ->
  NoDup (od_keys schema) ->
  od_keys schema ⊆ labels d ->
  od_get c schema = Some dtype ->
  classify dtype = BOOLEAN ->
  cell d c i = Some NaN ->
  exists out_ref h' out,
    clean_data' r schema h = (Ok out_ref, h') /\
    h' !! out_ref = Some out /\
    cell out c i = Some (PyBool true).
Proof.
  intros Hr Hnd Hsub Hget Hclass Hcell.
  exact (boolean_cell h r d schema c dtype i NaN Hr Hnd Hsub Hget Hclass Hcell).
Qed.

(** *** The frame of the result *)

Lemma take_columns_ext d1 d2 ls :
  nrows d2 = nrows d1 ->
  (forall c, c ∈ ls -> column d2 c = column d1 c) ->
  take_columns d2 ls = take_columns d1 ls.
Proof.
  intros Hn Hcol. unfold take_columns. rewrite Hn.
  assert (Hf : filter (fun l => column d2 l = None) ls
               = filter (fun l => column d1 l = None) ls).
  { clear Hn. induction ls as [|l ls IH]; [done|].
    rewrite !filter_cons, (Hcol l) by left.
    rewrite IH; [done|]. intros c Hc. apply Hcol. by right. }
  assert (Ho : omap (fun l => match column d2 l with
                              | Some s => Some (l, s)
                              | None => None
                              end) ls
               = omap (fun l => match column d1 l with
                                | Some s => Some (l, s)
                                | None => None
                                end) ls).
  { clear Hn Hf. induction ls as [|l ls IH]; [done|].
    assert (IH' := IH (fun c Hc => Hcol c (list_elem_of_further _ _ _ Hc))).
    simpl. rewrite (Hcol l) by left.
    destruct (column d1 l); [f_equal|]; exact IH'. }
  by rewrite Hf, Ho.
Qed.

(** X11.  The result does not depend on the columns that the schema does
    not name: two frames with the same row count and the same schema
    columns are cleaned to the same frame. *)
Theorem extra_columns_ignored h1 r1 d1 h2 r2 d2 schema :
  h1 !! r1 = Some d1 ->
  h2 !! r2 = Some d2 ->
  nrows d2 = nrows d1 ->
  od_keys schema ⊆ labels d1 ->
  (forall c, c ∈ od_keys schema -> column d2 c = column d1 c) ->
  exists out_ref1 h1' out_ref2 h2' out,
    clean_data' r1 schema h1 = (Ok out_ref1, h1') /\
    clean_data' r2 schema h2 = (Ok out_ref2, h2') /\
    h1' !! out_ref1 = Some out /\
    h2' !! out_ref2 = Some out.
Proof.
  intros Hr1 Hr2 Hn Hsub Hcol.
  destruct (take_columns_Ok d1 _ Hsub) as (sel & Hsel1 & _).
  assert (Hsel2 : take_columns d2 (od_keys schema) = Ok sel).
  { by rewrite (take_columns_ext d1 d2 _ Hn Hcol). }
  pose proof (clean_data_run h1 r1 d1 schema sel Hr1 Hsel1) as Hrun1.
  pose proof (clean_data_run h2 r2 d2 schema sel Hr2 Hsel2) as Hrun2.
  simpl in Hrun1, Hrun2.
  do 4 eexists. exists (cleaned' schema sel).
  split; [exact Hrun1|]. split; [exact Hrun2|].
  split; apply lookup_insert_eq.
Qed.

Lemma take_columns_lengths d ls sel :
  Forall (fun c => length c.2 = nrows d) (columns d) ->
  take_columns d ls = Ok sel ->
  Forall (fun c => length c.2 = nrows sel) (columns sel).
Proof.
  intros Hlen. unfold take_columns.
  destruct (filter _ ls); [|done]. intros [= <-]. simpl.
  induction ls as [|l ls IH]; simpl; [constructor|].
  destruct (column d l) as [s|] eqn:E; [|done]. simpl.
  constructor; [|done]. simpl. unfold column in E. clear -E Hlen.
  induction (columns d) as [|[l0 s0] cs IH]; [done|].
  apply Forall_cons in Hlen as [H0 Hlen]. simpl in E.
  destruct (String.eqb l l0); [by simplify_eq | by apply IH].
Qed.

Lemma map_cells_lengths f d :
  Forall (fun c => length c.2 = nrows d) (columns d) ->
  Forall (fun c => length c.2 = nrows (map_cells f d)) (columns (map_cells f d)).
Proof.
  intros H. unfold map_cells; simpl. apply Forall_map.
  eapply Forall_impl; [exact H|]. intros [l s] Hs; simpl in *.
  by rewrite length_map.
Qed.

Lemma map_columns_lengths (f : series -> series) d :
  (forall s, length (f s) = length s) ->
  Forall (fun c => length c.2 = nrows d) (columns d) ->
  Forall (fun c => length c.2 = nrows (map_columns f d))
    (columns (map_columns f d)).
Proof.
  intros Hf H. unfold map_columns; simpl. apply Forall_map.
  eapply Forall_impl; [exact H|]. intros [l s] Hs; simpl in *.
  by rewrite Hf.
Qed.

Lemma where_series_length s : length (where_series' s) = length s.
Proof. destruct (where_series_map s) as [f ->]. apply length_map. Qed.

Lemma set_column_lengths l s d :
  length s = nrows d ->
  Forall (fun c => length c.2 = nrows d) (columns d) ->
  Forall (fun c => length c.2 = nrows (set_column l s d))
    (columns (set_column l s d)).
Proof.
  intros Hs H. unfold set_column; simpl.
  induction H as [|[l0 s0] cs H0 H IH]; simpl.
  - by repeat constructor.
  - destruct (String.eqb l l0); by constructor.
Qed.

Lemma column_length d l s :
  Forall (fun c => length c.2 = nrows d) (columns d) ->
  column d l = Some s -> length s = nrows d.
Proof.
  unfold column. induction 1 as [|[l0 s0] cs H0 H IH]; simpl; [done|].
  destruct (String.eqb l l0); [by intros [= <-] | done].
Qed.

Lemma convert_frame_lengths d item :
  Forall (fun c => length c.2 = nrows d) (columns d) ->
  Forall (fun c => length c.2 = nrows (convert_frame' d item))
    (columns (convert_frame' d item)).
Proof.
  intros H. unfold convert_frame.
  destruct (column d item.1) as [s|] eqn:E; [|done].
  apply set_column_lengths; [|done].
  destruct (convert_series_map item.2 s) as [f ->].
  rewrite length_map. by apply (column_length d item.1).
Qed.

Lemma fold_convert_lengths schema d :
  Forall (fun c => length c.2 = nrows d) (columns d) ->
  Forall (fun c => length c.2 = nrows (fold_left convert_frame' schema d))
    (columns (fold_left convert_frame' schema d)).
Proof.
  revert d. induction schema as [|item schema IH]; intros d H; simpl; [done|].
  by apply IH, convert_frame_lengths.
Qed.

(** X12.  The two functions compose: for a schema that [parse_sql_schema]
    returns and a well-formed frame that has its columns, [clean_data]
    returns a well-formed frame, whose labels are the columns of the
    schema in schema order, each once, and whose columns have the row
    count of the input. *)
Theorem parsed_schema_cleans sql schema h r d :
  parse_sql_schema sql = Ok schema ->
  h !! r = Some d ->
  wf_frame d ->
  od_keys schema ⊆ labels d ->
  exists out_ref h' out,
    clean_data' r schema h = (Ok out_ref, h') /\
    h' !! out_ref = Some out /\
    labels out = od_keys schema /\
    nrows out = nrows d /\
    wf_frame out.
Proof.
  intros Hparse Hr [_ Hlen] Hsub.
  assert (Hnd : NoDup (od_keys schema)).
  { unfold parse_sql_schema in Hparse.
    destruct (Regex.search_table sql); [|done]. injection Hparse as <-.
    rewrite fold_add_column. apply fold_assign_NoDup. constructor. }
  destruct (take_columns_Ok d _ Hsub) as (sel & Hsel & Hn & Hlab & _).
  pose proof (clean_data_run h r d schema sel Hr Hsel) as Hrun.
  simpl in Hrun.
  assert (Hlabels : labels (cleaned' schema sel) = od_keys schema).
  { unfold cleaned.
    by rewrite labels_map_columns, fold_convert_labels, labels_map_cells. }
  do 3 eexists. split; [exact Hrun|]. split; [apply lookup_insert_eq|].
  split; [exact Hlabels|]. split.
  { unfold cleaned; simpl. by rewrite fold_convert_nrows. }
  split; [by rewrite Hlabels|].
  unfold cleaned.
  apply (map_columns_lengths _ _ where_series_length),
    fold_convert_lengths, map_cells_lengths.
  by apply (take_columns_lengths d (od_keys schema)).
Qed.

End CleaningFacts.

(* ================================================================== *)
(** ** The theorems at the sample data *)

Section Witnesses.
Import Regex.

Local Abbreviation clean_sample :=
  (clean_data Sample.numeric_cell Sample.datetime_cell Sample.str_float
     Sample.str_timestamp Sample.str_missing Sample.keeps_null).

Local Ltac by_decide :=
  match goal with
  | |- ?P => apply (bool_decide_unpack P); by vm_compute
  end.

Lemma sample_lookup : Sample.heap !! 1%positive = Some Sample.raw.
Proof. reflexivity. Qed.

Lemma sample_schema_NoDup : NoDup (od_keys Sample.schema).
Proof. by_decide. Qed.

Lemma sample_schema_covered : od_keys Sample.schema ⊆ labels Sample.raw.
Proof.
  intros k Hk. apply list_elem_of_In. apply list_elem_of_In in Hk.
  simpl in *. tauto.
Qed.

Lemma sample_wf : wf_frame Sample.raw.
Proof.
  split; [by_decide | repeat constructor].
Qed.

Lemma staff_lookup : Staff.heap !! 1%positive = Some Staff.raw.
Proof. reflexivity. Qed.

Lemma staff_schema_NoDup : NoDup (od_keys Staff.schema).
Proof. by_decide. Qed.

Lemma staff_schema_covered : od_keys Staff.schema ⊆ labels Staff.raw.
Proof.
  intros k Hk. apply list_elem_of_In. apply list_elem_of_In in Hk.
  simpl in *. tauto.
Qed.

(** C1: the second cell of the BOOLEAN column [active] is the empty
    string; it comes out as [False], and is null in the result for no
    choice of the library conversions. *)
Lemma sentinel_boolean_cell_not_null :
  cell Sample.raw "active" 1 = Some (PyStr "") /\
  od_get "active" Sample.schema = Some "BOOLEAN" /\
  (exists out_ref h' out,
     clean_sample 1%positive Sample.schema Sample.heap = (Ok out_ref, h') /\
     h' !! out_ref = Some out /\
     cell out "active" 1 = Some (PyBool false)) /\
  ~ (exists numeric_cell datetime_cell str_float str_timestamp str_missing
            keeps_null out_ref h' out v,
       clean_data numeric_cell datetime_cell str_float str_timestamp
         str_missing keeps_null
         1%positive Sample.schema Sample.heap = (Ok out_ref, h') /\
       h' !! out_ref = Some out /\
       cell out "active" 1 = Some v /\
       isnull v = true).
Proof.
  assert (Hcell : forall nc dc sf st sm kn,
            exists out_ref h' out,
              clean_data nc dc sf st sm kn 1%positive Sample.schema Sample.heap
              = (Ok out_ref, h') /\
              h' !! out_ref = Some out /\
              cell out "active" 1 = Some (PyBool false)).
  { intros nc dc sf st sm kn.
    exact (boolean_cell nc dc sf st sm kn Sample.heap 1%positive
             Sample.raw Sample.schema "active" "BOOLEAN" 1 (PyStr "")
             sample_lookup sample_schema_NoDup sample_schema_covered
             eq_refl eq_refl eq_refl). }
  split; [reflexivity|]. split; [reflexivity|]. split; [apply Hcell|].
  intros (nc & dc & sf & st & sm & kn & out_ref & h' & out & v
          & Hrun & Hout & Hv & Hn).
  destruct (Hcell nc dc sf st sm kn)
    as (out_ref' & h'' & out' & Hrun' & Hout' & Hc).
  rewrite Hrun in Hrun'. injection Hrun' as <- <-.
  rewrite Hout in Hout'. injection Hout' as <-.
  rewrite Hv in Hc. injection Hc as ->. discriminate Hn.
Qed.

Lemma sentinel_cells_null_or_false_witness :
  exists out_ref h' out v,
    clean_sample 1%positive Sample.schema Sample.heap = (Ok out_ref, h') /\
    h' !! out_ref = Some out /\
    cell out "salary" 1 = Some v /\
    (classify "NUMERIC" = BOOLEAN -> v = PyBool false) /\
    (classify "NUMERIC" <> BOOLEAN -> classify "NUMERIC" <> TEXT ->
     isnull v = true).
Proof.
  apply (sentinel_cells_null_or_false _ _ _ _ _ _ Sample.heap 1%positive
           Sample.raw Sample.schema "salary" "NUMERIC" 1 "Not Provided").
  - reflexivity.
  - exact sample_schema_NoDup.
  - exact sample_schema_covered.
  - reflexivity.
  - reflexivity.
  - right. reflexivity.
Defined.

(** C3: the first cell of the BOOLEAN column [active] of the staff table
    is NaN, a null cell; it comes out as [True], and as [False] for no
    choice of the library conversions. *)
Lemma null_boolean_cell_true :
  cell Staff.raw "active" 0 = Some NaN /\
  isnull NaN = true /\
  od_get "active" Staff.schema = Some "BOOLEAN" /\
  (exists out_ref h' out,
     clean_sample 1%positive Staff.schema Staff.heap = (Ok out_ref, h') /\
     h' !! out_ref = Some out /\
     cell out "active" 0 = Some (PyBool true)) /\
  ~ (exists numeric_cell datetime_cell str_float str_timestamp str_missing
            keeps_null out_ref h' out,
       clean_data numeric_cell datetime_cell str_float str_timestamp
         str_missing keeps_null
         1%positive Staff.schema Staff.heap = (Ok out_ref, h') /\
       h' !! out_ref = Some out /\
       cell out "active" 0 = Some (PyBool false)).
Proof.
  assert (Hcell : forall nc dc sf st sm kn,
            exists out_ref h' out,
              clean_data nc dc sf st sm kn 1%positive Staff.schema Staff.heap
              = (Ok out_ref, h') /\
              h' !! out_ref = Some out /\
              cell out "active" 0 = Some (PyBool true)).
  { intros nc dc sf st sm kn.
    exact (boolean_cell nc dc sf st sm kn Staff.heap 1%positive
             Staff.raw Staff.schema "active" "BOOLEAN" 0 NaN
             staff_lookup staff_schema_NoDup staff_schema_covered
             eq_refl eq_refl eq_refl). }
  split; [reflexivity|]. split; [reflexivity|]. split; [reflexivity|].
  split; [apply Hcell|].
  intros (nc & dc & sf & st & sm & kn & out_ref & h' & out
          & Hrun & Hout & Hv).
  destruct (Hcell nc dc sf st sm kn)
    as (out_ref' & h'' & out' & Hrun' & Hout' & Hc).
  rewrite Hrun in Hrun'. injection Hrun' as <- <-.
  rewrite Hout in Hout'. injection Hout' as <-.
  rewrite Hv in Hc. discriminate Hc.
Qed.

Lemma boolean_column_truthiness_witness :
  exists out_ref h' out,
    clean_sample 1%positive Sample.schema Sample.heap = (Ok out_ref, h') /\
    h' !! out_ref = Some out /\
    cell out "active" 1 = Some (PyBool false).
Proof.
  destruct (boolean_column_truthiness Sample.numeric_cell
              Sample.datetime_cell Sample.str_float Sample.str_timestamp
              Sample.str_missing Sample.keeps_null
              Sample.heap 1%positive Sample.raw Sample.schema
              "active" "BOOLEAN" 1 (PyStr "")
              sample_lookup sample_schema_NoDup sample_schema_covered
              eq_refl eq_refl eq_refl)
    as (out_ref & h' & out & b & Hrun & Hout & Hcell & Hfalse & _).
  exists out_ref, h', out. split; [exact Hrun|]. split; [exact Hout|].
  rewrite Hcell. do 2 f_equal. apply Hfalse. right. left. reflexivity.
Defined.


Lemma clean_data_preserves_rows_witness :
  exists out_ref h' out,
    clean_sample 1%positive Sample.schema Sample.heap = (Ok out_ref, h') /\
    h' !! out_ref = Some out /\
    nrows out = 2 /\
    forall c s', column out c = Some s' ->
      length s' = 2 /\
      exists s f, column Sample.raw c = Some s /\ s' = map f s.
Proof.
  exact (clean_data_preserves_rows _ _ _ _ _ _ Sample.heap 1%positive
           Sample.raw Sample.schema sample_lookup sample_wf
           sample_schema_covered).
Defined.

Lemma names_lookup : Sample.names_heap !! 1%positive = Some Sample.names_only.
Proof. reflexivity. Qed.

Lemma clean_data_missing_column_witness :
  exists missing,
    clean_sample 1%positive Sample.salary_schema Sample.names_heap
    = (Raise (KeyError missing), Sample.names_heap).
Proof.
  apply (proj1 (proj1 (clean_data_missing_column _ _ _ _ _ _
                         Sample.names_heap 1%positive Sample.names_only
                         Sample.salary_schema names_lookup))).
  exists "salary". split; [left|].
  intros H. apply list_elem_of_In in H. simpl in H.
  destruct H as [H|[]]. discriminate H.
Defined.

Lemma clean_data_leaves_input_witness :
  Sample.heap !! 1%positive = Some Sample.raw /\
  exists out_ref h',
    clean_sample 1%positive Sample.schema Sample.heap = (Ok out_ref, h') /\
    h' !! 1%positive = Some Sample.raw /\
    Sample.heap !! out_ref = None /\
    Sample.heap ⊆ h'.
Proof.
  split; [reflexivity|].
  destruct (clean_sample 1%positive Sample.schema Sample.heap)
    as [[out_ref|e] h'] eqn:Hrun; [|by vm_compute in Hrun].
  exists out_ref, h'. split; [reflexivity|].
  exact (clean_data_leaves_input _ _ _ _ _ _ Sample.heap 1%positive
           Sample.raw Sample.schema out_ref h' sample_lookup Hrun).
Defined.

Lemma twice_lines_ok : Forall (fun l => Ddl.line_ok l = true) Sample.twice_lines.
Proof. repeat constructor. Qed.

Lemma duplicate_column_overwrites_witness :
  exists schema,
    parse_sql_schema Sample.twice = Ok schema /\
    NoDup (od_keys schema) /\
    od_keys schema = ["id"; "name"] /\
    od_get "id" schema = Some "TEXT" /\
    od_get "name" schema = Some "TEXT".
Proof.
  destruct (duplicate_column_overwrites Sample.twice
              (TableMatch "t" (Ddl.body_text Sample.twice_lines)) eq_refl)
    as (schema & Hparse & Hnd & _ & _ & Hlines).
  destruct (Hlines Sample.twice_lines twice_lines_ok eq_refl) as [Hkeys Hget].
  exists schema. split; [exact Hparse|]. split; [exact Hnd|].
  split; [rewrite Hkeys; by vm_compute|].
  split; rewrite Hget; reflexivity.
Defined.

Lemma one_definition_per_line_recorded_witness :
  parse_sql_schema (Ddl.create_table "staff" Sample.lines)
  = Ok [("id", "INTEGER"); ("name", "TEXT"); ("salary", "NUMERIC(10")].
Proof.
  apply (one_definition_per_line_recorded "staff" Sample.lines).
  - reflexivity.
  - repeat constructor.
  - by_decide.
Defined.



End Witnesses.

(* ================================================================== *)
(** ** Further properties of [parse_sql_schema] *)

Section MoreSchemaFacts.
Import Chars Str Regex.

Local Abbreviation no_semicolon := (fun c : ascii => negb (Ascii.eqb c ";")).
Local Abbreviation assign :=
  (fun acc (kv : string * string) => od_set kv.1 kv.2 acc).

Local Ltac by_char c :=
  destruct c as [[] [] [] [] [] [] [] []]; vm_compute; congruence.

Lemma strip_prefix_split eq lit s r :
  strip_prefix eq lit s = Some r -> exists p, s = p +:+ r.
Proof.
  revert s. induction lit as [|a lit IH]; intros s; simpl.
  - intros [= ->]. by exists EmptyString.
  - destruct s as [|b s]; [done|]. destruct (eq a b); [|done].
    intros H. destruct (IH _ H) as [p ->]. by exists (String b p).
Qed.

Lemma lazy_until_no_semicolon s :
  all no_semicolon s = true -> lazy_until ");" s = None.
Proof.
  induction s as [|c s IH]; [done|]. cbn [all]. rewrite andb_true_iff.
  intros [Hc Hs]. cbn [lazy_until].
  assert (Hnone : strip_prefix Ascii.eqb ");" (String c s) = None).
  { cbn [strip_prefix]. destruct (Ascii.eqb ")" c); [|done].
    destruct s as [|c' s]; [done|]. cbn [all] in Hs.
    apply andb_true_iff in Hs as [Hc' _]. apply negb_true_iff in Hc'.
    rewrite Ascii.eqb_sym in Hc'. by rewrite Hc'. }
  by rewrite Hnone, (IH Hs).
Qed.

Lemma match_table_no_semicolon s :
  all no_semicolon s = true -> match_table s = None.
Proof.
  intros Hs. unfold match_table.
  destruct (strip_prefix eqb_nocase "CREATE TABLE " s) as [r1|] eqn:E1;
    [|done].
  apply strip_prefix_split in E1 as [p ->].
  rewrite all_app in Hs. apply andb_true_iff in Hs as [_ Hs].
  destruct (span is_word r1) as [name r2] eqn:E2.
  destruct (is_empty name); [done|].
  apply span_spec in E2 as (-> & _).
  rewrite all_app in Hs. apply andb_true_iff in Hs as [_ Hs].
  destruct (span is_space r2) as [ws r3] eqn:E3.
  apply span_spec in E3 as (-> & _).
  rewrite all_app in Hs. apply andb_true_iff in Hs as [_ Hs].
  destruct r3 as [|c r4]; [done|]. destruct (Ascii.eqb c "("); [|done].
  cbn [all] in Hs. apply andb_true_iff in Hs as [_ Hs].
  by rewrite (lazy_until_no_semicolon _ Hs).
Qed.

Lemma search_table_no_semicolon s :
  all no_semicolon s = true -> search_table s = None.
Proof.
  induction s as [|c s IH]; intros Hs.
  - reflexivity.
  - cbn [search_table]. rewrite (match_table_no_semicolon _ Hs).
    cbn [all] in Hs. apply andb_true_iff in Hs as [_ Hs]. by apply IH.
Qed.

(** X1.  A text without a semicolon has no CREATE TABLE statement for
    [parse_sql_schema], whatever else it holds: the statement has to end
    with [");"], and the call raises the [ValueError]. *)
Theorem unterminated_statement_rejected sql :
  all (fun c => negb (Ascii.eqb c ";")) sql = true ->
  parse_sql_schema sql
  = Raise (ValueError "No valid CREATE TABLE statement found").
Proof.
  intros H. unfold parse_sql_schema.
  by rewrite (search_table_no_semicolon sql H).
Qed.

Lemma unterminated_statement_rejected_witness :
  parse_sql_schema
    ("CREATE TABLE emp (" +:+ Ddl.nl +:+ "  id INTEGER" +:+ Ddl.nl +:+ ")")
  = Raise (ValueError "No valid CREATE TABLE statement found").
Proof.
  apply (unterminated_statement_rejected
           ("CREATE TABLE emp (" +:+ Ddl.nl +:+ "  id INTEGER" +:+ Ddl.nl +:+ ")")).
  reflexivity.
Defined.

(** *** The entries of a schema *)

Lemma upper_char_idem c : upper_char (upper_char c) = upper_char c.
Proof. by_char c. Qed.

Lemma is_type_char_upper c : is_type_char (upper_char c) = is_type_char c.
Proof. by_char c. Qed.

Lemma upper_idem s : upper (upper s) = upper s.
Proof.
  induction s as [|c s IH]; simpl; [done|]. by rewrite upper_char_idem, IH.
Qed.

Lemma all_type_char_upper s : all is_type_char (upper s) = all is_type_char s.
Proof.
  induction s as [|c s IH]; simpl; [done|]. by rewrite is_type_char_upper, IH.
Qed.

Lemma is_empty_upper s : is_empty (upper s) = is_empty s.
Proof. by destruct s. Qed.

Lemma finditer_from_groups fuel pos bol s :
  Forall (fun m => is_empty (group1 m) = false /\ all is_word (group1 m) = true /\
                   is_empty (group2 m) = false /\
                   all is_type_char (group2 m) = true)
    (finditer_from fuel pos bol s).
Proof.
  revert pos bol s. induction fuel as [|fuel IH]; intros pos bol s;
    [constructor|].
  destruct s as [|c s]; [constructor|]. cbn [finditer_from].
  destruct (if bol then match_column (String c s) else None)
    as [[[g1 g2] rest]|] eqn:E; [|apply IH].
  destruct bol; [|done]. constructor; [|apply IH].
  apply match_column_spec in E
    as (ws1 & ws2 & _ & _ & H1 & H2 & _ & _ & H3 & H4 & _).
  done.
Qed.

Lemma od_set_Forall (P : string * string -> Prop) k v d :
  P (k, v) -> Forall P d -> Forall P (od_set k v d).
Proof.
  intros Hkv. induction 1 as [|[k' v'] d Hx Hd IH]; simpl.
  - by constructor.
  - destruct (String.eqb k k'); by constructor.
Qed.

Lemma fold_assign_Forall (P : string * string -> Prop) ds acc :
  Forall P ds -> Forall P acc -> Forall P (fold_left assign ds acc).
Proof.
  intros Hds. revert acc. induction Hds as [|[k v] ds Hkv Hds IH];
    intros acc Hacc; simpl; [done|].
  apply IH. by apply od_set_Forall.
Qed.

(** X2.  Every entry of a parsed schema is well formed: the column name
    is a non-empty word, and the type is a non-empty token of word
    characters and parentheses that is in upper case, in whatever case
    the file spells it. *)
Theorem schema_entries_well_formed sql schema :
  parse_sql_schema sql = Ok schema ->
  Forall (fun kv => Ddl.identifier kv.1 = true /\
                    is_empty kv.2 = false /\
                    all is_type_char kv.2 = true /\
                    upper kv.2 = kv.2) schema.
Proof.
  unfold parse_sql_schema. destruct (search_table sql) as [m|]; [|done].
  intros [= <-]. rewrite fold_add_column.
  apply fold_assign_Forall; [|constructor].
  apply Forall_map.
  eapply Forall_impl; [apply finditer_from_groups|].
  intros cm (H1 & H2 & H3 & H4). unfold declaration; simpl.
  rewrite (strip_word _ H2), (split_space_head_type _ H4).
  unfold Ddl.identifier.
  rewrite H1, H2, is_empty_upper, H3, all_type_char_upper, H4, upper_idem.
  done.
Qed.

Lemma schema_entries_well_formed_witness :
  Forall (fun kv => Ddl.identifier kv.1 = true /\
                    is_empty kv.2 = false /\
                    all is_type_char kv.2 = true /\
                    upper kv.2 = kv.2)
    [("id", "INTEGER"); ("name", "TEXT")].
Proof.
  apply (schema_entries_well_formed Script.lower_case_file).
  reflexivity.
Defined.

(** *** Lines and columns *)

Lemma count_newlines_app a b :
  count_newlines (a +:+ b) = count_newlines a + count_newlines b.
Proof.
  induction a as [|c a IH]; [done|]. rewrite append_cons. simpl.
  rewrite IH. lia.
Qed.

Lemma finditer_from_count fuel pos bol s :
  length (finditer_from fuel pos bol s)
  <= (if bol then 1 else 0) + count_newlines s.
Proof.
  revert pos bol s. induction fuel as [|fuel IH]; intros pos bol s;
    [simpl; lia|].
  destruct s as [|c s]; [simpl; lia|]. cbn [finditer_from].
  destruct (if bol then match_column (String c s) else None)
    as [[[g1 g2] rest]|] eqn:E.
  - destruct bol; [|done].
    apply match_column_spec in E as (ws1 & ws2 & Hs & _).
    cbn [length].
    generalize (pos + (String.length (String c s) - String.length rest)).
    intros e. specialize (IH e false rest).
    rewrite Hs, !count_newlines_app. simpl in IH. lia.
  - specialize (IH (S pos) (is_newline c) s). cbn [count_newlines].
    destruct bol, (is_newline c); simpl in *; lia.
Qed.

Lemma length_od_set k v d : length (od_set k v d) <= S (length d).
Proof.
  induction d as [|[k' v'] d IH]; simpl; [lia|].
  destruct (String.eqb k k'); simpl; lia.
Qed.

Lemma length_fold_assign ds acc :
  length (fold_left assign ds acc) <= length acc + length ds.
Proof.
  revert acc. induction ds as [|[k v] ds IH]; intros acc; simpl; [lia|].
  specialize (IH (od_set k v acc)). pose proof (length_od_set k v acc).
  simpl in *. lia.
Qed.

(** X3.  A schema has at most one column for each line of the body of
    the statement: its length is at most one more than the number of
    newlines of the body. *)
Theorem at_most_one_column_per_line sql m :
  search_table sql = Some m ->
  exists schema,
    parse_sql_schema sql = Ok schema /\
    length schema <= S (count_newlines (columns_block m)).
Proof.
  intros Hm. unfold parse_sql_schema. rewrite Hm. eexists. split; [done|].
  rewrite fold_add_column.
  pose proof (length_fold_assign
                (map declaration (finditer (columns_block m))) []) as H1.
  pose proof (finditer_from_count (String.length (columns_block m)) 0 true
                (columns_block m)) as H2.
  rewrite length_map in H1. unfold finditer in *. cbn [length Nat.add] in *.
  lia.
Qed.

Lemma at_most_one_column_per_line_witness :
  exists schema,
    parse_sql_schema
      "CREATE TABLE emp (id INTEGER, name TEXT, salary NUMERIC, active BOOLEAN);"
    = Ok schema /\
    length schema
    <= S (count_newlines "id INTEGER, name TEXT, salary NUMERIC, active BOOLEAN").
Proof.
  apply (at_most_one_column_per_line
           "CREATE TABLE emp (id INTEGER, name TEXT, salary NUMERIC, active BOOLEAN);"
           (TableMatch "emp"
              "id INTEGER, name TEXT, salary NUMERIC, active BOOLEAN")).
  reflexivity.
Defined.

(** *** Schema files in any letter case, with text around the statement *)

Lemma strip_prefix_nocase lit keyword rest :
  upper keyword = upper lit ->
  strip_prefix eqb_nocase lit (keyword +:+ rest) = Some rest.
Proof.
  revert keyword. induction lit as [|a lit IH]; intros keyword H.
  - destruct keyword; [done | discriminate H].
  - destruct keyword as [|b keyword]; [discriminate H|].
    simpl in H. injection H as Hb Hk. rewrite append_cons.
    cbn [strip_prefix]. unfold eqb_nocase at 1.
    rewrite Hb, Ascii.eqb_refl. by apply IH.
Qed.

Lemma match_table_other_letter c s :
  eqb_nocase "C" c = false -> match_table (String c s) = None.
Proof. intros H. unfold match_table. cbn [strip_prefix]. by rewrite H. Qed.

(** The search passes over a text that has no letter [C]. *)
Lemma search_table_skip before s :
  Script.no_letter_c before = true ->
  search_table (before +:+ s) = search_table s.
Proof.
  unfold Script.no_letter_c. induction before as [|c before IH]; [done|].
  cbn [all]. rewrite andb_true_iff, negb_true_iff. intros [Hc Hrest].
  rewrite append_cons. cbn [search_table].
  by rewrite (match_table_other_letter _ _ Hc), (IH Hrest).
Qed.

Lemma search_table_here s m : match_table s = Some m -> search_table s = Some m.
Proof. intros H. destruct s; cbn [search_table]; by rewrite H. Qed.

Lemma starts_outside_space_paren space s :
  all is_space space = true ->
  Ddl.starts_outside is_word (space +:+ String "(" s) = true.
Proof.
  destruct space as [|c space]; [done|]. cbn [all]. rewrite andb_true_iff.
  intros [Hc _]. rewrite append_cons. simpl. by rewrite (space_not_word c Hc).
Qed.

Lemma match_table_statement keyword table space body after :
  upper keyword = "CREATE TABLE " ->
  Ddl.identifier table = true ->
  all is_space space = true ->
  all no_semicolon body = true ->
  match_table (keyword +:+ table +:+ space +:+ "(" +:+ body +:+ ");" +:+ after)
  = Some (TableMatch table body).
Proof.
  intros Hk Ht Hs Hb. unfold Ddl.identifier in Ht.
  apply andb_true_iff in Ht as [Ht0 Ht]. apply negb_true_iff in Ht0.
  unfold match_table. rewrite strip_prefix_nocase by done.
  rewrite (span_app is_word table);
    [|done|by apply starts_outside_space_paren].
  rewrite Ht0. rewrite (span_app is_space space); [|done|done].
  change ("(" +:+ body +:+ ");" +:+ after)
    with (String "(" (body +:+ ");" +:+ after)).
  cbn [Ascii.eqb Bool.eqb]. by rewrite (lazy_until_close _ _ Hb).
Qed.

(** X4.  A schema file is read the same in any letter case of the
    keyword and with any text around the statement: with text before it
    that has no letter C, any white space between the table name and the
    parenthesis, and any text after [");"], [parse_sql_schema] records
    the column that starts each line of the body, with its type token in
    upper case. *)
Theorem schema_file_parsed before keyword table space lines after :
  Script.no_letter_c before = true ->
  upper keyword = "CREATE TABLE " ->
  Ddl.identifier table = true ->
  all is_space space = true ->
  Forall (fun l => Ddl.line_ok l = true) lines ->
  NoDup (map Ddl.name lines) ->
  parse_sql_schema (Script.schema_file before keyword table space lines after)
  = Ok (map (fun l => (Ddl.name l, upper (Ddl.type_token l))) lines).
Proof.
  intros Hbefore Hk Ht Hs Hok Hnd. unfold parse_sql_schema, Script.schema_file.
  rewrite (search_table_skip before _ Hbefore).
  rewrite (search_table_here _ _
             (match_table_statement keyword table space (Ddl.body_text lines)
                after Hk Ht Hs (body_text_no_semicolon lines Hok))).
  cbn [columns_block]. rewrite fold_add_column.
  fold (declarations (Ddl.body_text lines)).
  rewrite (declarations_lines lines Hok), fold_assign_fresh.
  - done.
  - by rewrite map_map.
  - intros k _. apply not_elem_of_nil.
Qed.

Lemma schema_file_parsed_witness :
  parse_sql_schema Script.lower_case_file
  = Ok [("id", "INTEGER"); ("name", "TEXT")].
Proof.
  apply (schema_file_parsed ("-- the staff" +:+ Ddl.nl) "create table "
           "staff" "  "
           [Ddl.ColumnLine (Ddl.nl +:+ "  ") "id" " " "integer" " primary key,";
            Ddl.ColumnLine "  " "name" " " "text" ","]
           (Ddl.nl +:+ "CREATE TABLE other (x INT);")).
  - reflexivity.
  - reflexivity.
  - reflexivity.
  - reflexivity.
  - repeat constructor.
  - apply (bool_decide_unpack (NoDup ["id"; "name"])). by vm_compute.
Defined.

(** *** The table that [load_csv_to_postgres] copies into *)

Lemma match_table_name_of_match s m :
  match_table s = Some m -> Loader.match_table_name s = Some (table_name m).
Proof.
  unfold match_table, Loader.match_table_name.
  destruct (strip_prefix eqb_nocase "CREATE TABLE " s) as [r1|]; [|done].
  destruct (span is_word r1) as [name r2].
  destruct (is_empty name); [done|].
  destruct (span is_space r2) as [ws r3].
  destruct r3 as [|c r4]; [done|]. destruct (Ascii.eqb c "("); [|done].
  destruct (lazy_until ");" r4) as [[body rest]|]; [|done].
  by intros [= <-].
Qed.

Lemma search_table_name_here s name :
  Loader.match_table_name s = Some name ->
  Loader.search_table_name s = Some name.
Proof. intros H. destruct s; cbn [Loader.search_table_name]; by rewrite H. Qed.

Lemma search_table_name_found s m :
  search_table s = Some m -> exists name, Loader.search_table_name s = Some name.
Proof.
  induction s as [|c s IH]; cbn [search_table Loader.search_table_name].
  - destruct (match_table EmptyString) as [m'|] eqn:E; [|done].
    intros _. rewrite (match_table_name_of_match _ _ E). eauto.
  - destruct (match_table (String c s)) as [m'|] eqn:E.
    + intros _. rewrite (match_table_name_of_match _ _ E). eauto.
    + intros H. destruct (Loader.match_table_name (String c s)); eauto.
Qed.

Lemma match_table_name_other_letter c s :
  eqb_nocase "C" c = false -> Loader.match_table_name (String c s) = None.
Proof.
  intros H. unfold Loader.match_table_name. cbn [strip_prefix]. by rewrite H.
Qed.

Lemma search_table_name_skip before s :
  Script.no_letter_c before = true ->
  Loader.search_table_name (before +:+ s) = Loader.search_table_name s.
Proof.
  unfold Script.no_letter_c. induction before as [|c before IH]; [done|].
  cbn [all]. rewrite andb_true_iff, negb_true_iff. intros [Hc Hrest].
  rewrite append_cons. cbn [Loader.search_table_name].
  by rewrite (match_table_name_other_letter _ _ Hc), (IH Hrest).
Qed.

(** X5.  When [parse_sql_schema] succeeds on the text of the schema
    file, the search for the table name that [load_csv_to_postgres] makes
    in the same text finds a name: [.group(1)] does not fail there. *)
Theorem table_name_search_succeeds sql schema :
  parse_sql_schema sql = Ok schema ->
  exists name, Loader.search_table_name sql = Some name.
Proof.
  unfold parse_sql_schema.
  destruct (search_table sql) as [m|] eqn:Hm; [|done].
  intros _. by apply (search_table_name_found sql m).
Qed.

Lemma table_name_search_succeeds_witness :
  exists name, Loader.search_table_name Script.lower_case_file = Some name.
Proof.
  apply (table_name_search_succeeds Script.lower_case_file
           [("id", "INTEGER"); ("name", "TEXT")]).
  reflexivity.
Defined.

(** X6.  In a schema file whose text before the statement has no letter
    C, the table name that [load_csv_to_postgres] puts in the COPY
    statement is the name of the statement whose columns
    [parse_sql_schema] records, whatever follows that statement. *)
Theorem copy_table_is_parsed_table before keyword table space lines after :
  Script.no_letter_c before = true ->
  upper keyword = "CREATE TABLE " ->
  Ddl.identifier table = true ->
  all is_space space = true ->
  Forall (fun l => Ddl.line_ok l = true) lines ->
  search_table (Script.schema_file before keyword table space lines after)
  = Some (TableMatch table (Ddl.body_text lines)) /\
  Loader.search_table_name
    (Script.schema_file before keyword table space lines after)
  = Some table.
Proof.
  intros Hbefore Hk Ht Hs Hok. unfold Script.schema_file.
  pose proof (match_table_statement keyword table space (Ddl.body_text lines)
                after Hk Ht Hs (body_text_no_semicolon lines Hok)) as Hm.
  split.
  - rewrite (search_table_skip _ _ Hbefore). by apply search_table_here.
  - rewrite (search_table_name_skip _ _ Hbefore).
    by apply search_table_name_here, (match_table_name_of_match _ _ Hm).
Qed.

Lemma copy_table_is_parsed_table_witness :
  search_table Script.lower_case_file
  = Some (TableMatch "staff"
            (Ddl.body_text
               [Ddl.ColumnLine (Ddl.nl +:+ "  ") "id" " " "integer"
                  " primary key,";
                Ddl.ColumnLine "  " "name" " " "text" ","])) /\
  Loader.search_table_name Script.lower_case_file = Some "staff".
Proof.
  apply (copy_table_is_parsed_table ("-- the staff" +:+ Ddl.nl)
           "create table " "staff" "  "
           [Ddl.ColumnLine (Ddl.nl +:+ "  ") "id" " " "integer" " primary key,";
            Ddl.ColumnLine "  " "name" " " "text" ","]
           (Ddl.nl +:+ "CREATE TABLE other (x INT);")).
  - reflexivity.
  - reflexivity.
  - reflexivity.
  - reflexivity.
  - repeat constructor.
Defined.

End MoreSchemaFacts.

(* ================================================================== *)
(** ** The further properties of [clean_data] at the sample data *)

Section MoreWitnesses.

Local Abbreviation clean_sample :=
  (clean_data Sample.numeric_cell Sample.datetime_cell Sample.str_float
     Sample.str_timestamp Sample.str_missing Sample.keeps_null).

Lemma staff_narrow_lookup : Staff.narrow_heap !! 2%positive = Some Staff.narrow.
Proof. reflexivity. Qed.

Lemma staff_columns_agree c :
  c ∈ od_keys Staff.schema -> column Staff.narrow c = column Staff.raw c.
Proof.
  intros Hc. apply list_elem_of_In in Hc. simpl in Hc.
  destruct Hc as [<-|[<-|[<-|[<-|[]]]]]; reflexivity.
Qed.

Lemma passthrough_column_kept_witness :
  exists out_ref h' out,
    clean_sample 1%positive Staff.schema Staff.heap = (Ok out_ref, h') /\
    h' !! out_ref = Some out /\
    cell out "code" 0 = Some (PyStr "a1").
Proof.
  destruct (passthrough_column_kept Sample.numeric_cell Sample.datetime_cell
              Sample.str_float Sample.str_timestamp Sample.str_missing
              Sample.keeps_null Staff.heap 1%positive
              Staff.raw Staff.schema "code" "VARCHAR(8)" 0 (PyStr "a1")
              staff_lookup staff_schema_NoDup staff_schema_covered
              eq_refl eq_refl eq_refl)
    as (out_ref & h' & out & v' & Hrun & Hout & Hcell & _ & Hkept).
  exists out_ref, h', out. split; [exact Hrun|]. split; [exact Hout|].
  rewrite Hcell. f_equal. exact (Hkept eq_refl).
Defined.

Lemma text_column_strings_witness :
  exists out_ref h' out,
    clean_sample 1%positive Staff.schema Staff.heap = (Ok out_ref, h') /\
    h' !! out_ref = Some out /\
    cell out "nick" 2 = Some (PyStr "7") /\
    (forall s, PyInt 7 = PyStr s -> cell out "nick" 2 = Some (PyStr s)).
Proof.
  exact (text_column_strings Sample.numeric_cell Sample.datetime_cell
           Sample.str_float Sample.str_timestamp Sample.str_missing
           Sample.keeps_null Staff.heap 1%positive
           Staff.raw Staff.schema "nick" "TEXT" 2 (PyInt 7)
           staff_lookup staff_schema_NoDup staff_schema_covered
           eq_refl eq_refl eq_refl eq_refl eq_refl).
Defined.

Lemma missing_cells_stay_null_witness :
  exists out_ref h' out v',
    clean_sample 1%positive Staff.schema Staff.heap = (Ok out_ref, h') /\
    h' !! out_ref = Some out /\
    cell out "grade" 1 = Some v' /\
    isnull v' = true.
Proof.
  apply (missing_cells_stay_null Sample.numeric_cell Sample.datetime_cell
           Sample.str_float Sample.str_timestamp Sample.str_missing
           Sample.keeps_null Staff.heap 1%positive
           Staff.raw Staff.schema "grade" "INTEGER" 1 NaN).
  - reflexivity.
  - exact staff_schema_NoDup.
  - exact staff_schema_covered.
  - reflexivity.
  - discriminate.
  - discriminate.
  - reflexivity.
  - right. reflexivity.
Defined.

Lemma nan_boolean_cell_true_witness :
  exists out_ref h' out,
    clean_sample 1%positive Staff.schema Staff.heap = (Ok out_ref, h') /\
    h' !! out_ref = Some out /\
    cell out "active" 0 = Some (PyBool true).
Proof.
  exact (nan_boolean_cell_true Sample.numeric_cell Sample.datetime_cell
           Sample.str_float Sample.str_timestamp Sample.str_missing
           Sample.keeps_null Staff.heap 1%positive
           Staff.raw Staff.schema "active" "BOOLEAN" 0
           staff_lookup staff_schema_NoDup staff_schema_covered
           eq_refl eq_refl eq_refl).
Defined.

Lemma extra_columns_ignored_witness :
  exists out_ref1 h1' out_ref2 h2' out,
    clean_sample 1%positive Staff.schema Staff.heap = (Ok out_ref1, h1') /\
    clean_sample 2%positive Staff.schema Staff.narrow_heap = (Ok out_ref2, h2') /\
    h1' !! out_ref1 = Some out /\
    h2' !! out_ref2 = Some out.
Proof.
  exact (extra_columns_ignored Sample.numeric_cell Sample.datetime_cell
           Sample.str_float Sample.str_timestamp Sample.str_missing
           Sample.keeps_null
           Staff.heap 1%positive Staff.raw
           Staff.narrow_heap 2%positive Staff.narrow Staff.schema
           staff_lookup staff_narrow_lookup eq_refl staff_schema_covered
           staff_columns_agree).
Defined.

Lemma lower_case_schema_covered :
  od_keys [("id", "INTEGER"); ("name", "TEXT")] ⊆ labels Sample.raw.
Proof.
  intros k Hk. apply list_elem_of_In. apply list_elem_of_In in Hk.
  simpl in *. tauto.
Qed.

Lemma parsed_schema_cleans_witness :
  exists out_ref h' out,
    clean_sample 1%positive [("id", "INTEGER"); ("name", "TEXT")] Sample.heap
    = (Ok out_ref, h') /\
    h' !! out_ref = Some out /\
    labels out = ["id"; "name"] /\
    nrows out = 2 /\
    wf_frame out.
Proof.
  exact (parsed_schema_cleans Sample.numeric_cell Sample.datetime_cell
           Sample.str_float Sample.str_timestamp Sample.str_missing
           Sample.keeps_null
           Script.lower_case_file [("id", "INTEGER"); ("name", "TEXT")]
           Sample.heap 1%positive Sample.raw
           eq_refl sample_lookup sample_wf lower_case_schema_covered).
Defined.

End MoreWitnesses.
